(** * SMO - Manifesto Operacional: the access layer and the root component

    A shallow embedding of [src/services/api.ts], of its two later
    revisions ([src/unnamed/part_000], [src/unnamed/part_001]) and of the
    submit logic of [src/App.tsx], followed by the properties the
    specification states about them.

    Conventions.
    - A JavaScript string is a Rocq [string]; its characters stand for the
      code units JavaScript compares, so [String.compare] is the order used
      by [Array.prototype.sort()] without a comparator.
    - A column value is [value = option string]: [None] is SQL NULL (JS
      [null]), [Some s] is the text [s].
    - Every awaited call either resolves or throws; what it does is fixed by
      the [Conditions] under which the code runs, and every request the code
      issues is recorded in the [calls] of the [World]. *)

From Stdlib Require Import List String Ascii Bool Arith Lia.
From Stdlib Require Import Sorted Permutation OrderedTypeEx.
Import ListNotations.
Local Open Scope string_scope.
Local Open Scope list_scope.

(* ================================================================== *)
(** * JavaScript values and the array helpers the code uses            *)
(* ================================================================== *)

Module Js.

Definition value := option string.

Definition value_eq_dec (a b : value) : {a = b} + {a <> b}.
Proof. decide equality. apply string_dec. Defined.

Definition value_eqb (a b : value) : bool :=
  if value_eq_dec a b then true else false.

(** [Boolean(v)]: [null] and the empty string are falsy. *)
Definition Boolean (v : value) : bool :=
  match v with
  | None => false
  | Some s => negb (s =? "")%string
  end.

(** [String(v)], the key the default sort compares. *)
Definition toString (v : value) : string :=
  match v with
  | None => "null"
  | Some s => s
  end.

Definition includes (x : value) (l : list value) : bool :=
  existsb (value_eqb x) l.

(** [Array.from(new Set(xs))]: the values are added one by one, a value
    already in the set is skipped, insertion order is kept. *)
Definition Set_add (acc : list value) (x : value) : list value :=
  if includes x acc then acc else acc ++ [x].

Definition Array_from_Set (xs : list value) : list value :=
  fold_left Set_add xs [].

(** [xs.sort()]: ascending by the string of each element; equal keys keep
    their order. *)
Fixpoint insert (x : value) (l : list value) : list value :=
  match l with
  | [] => [x]
  | y :: r =>
      if (toString x <=? toString y)%string then x :: y :: r
      else y :: insert x r
  end.

Definition sort (l : list value) : list value := fold_right insert [] l.

(** An [Error] object; only its [message] is read. *)
Record Error := { message : string }.

End Js.
Import Js.

(* ================================================================== *)
(** * The backing store                                                *)
(* ================================================================== *)

Module Cadastro_Operacional.
Record row := { Usuario_Operação : value }.
End Cadastro_Operacional.

Module SMO_Sistema.
Record row := {
  ID_Manifesto : value;
  Status : value;
  Usuario_Operacao : value;
  Usuario_Operação : value;
  Usuario : value;
  CIA : value;
  Manifesto_Disponivel : value;
  Manifesto_Iniciado : value
}.
End SMO_Sistema.

Module registros_operacionais.
Record row := {
  manifesto_id : string;
  acao : string;
  nome : string;
  created_at : string
}.
End registros_operacionais.

(** The requests the code issues, in the order it issues them. *)
Inductive Call :=
| Insert (r : registros_operacionais.row)
| Update (newStatus Usuario_Operacao ID_Manifesto : string)
| Post (url : string) (body : list (string * string))
| ConsoleError (label : string) (e : Error).

(** How a query settles: [{data, error: null}], [{data: null, error}],
    [{data: null, error: null}], or a rejected promise. *)
Inductive Health :=
| Healthy
| ReportsError (e : Error)
| NoData
| Throws (e : Error).

Record World := {
  tbl_Cadastro_Operacional : list Cadastro_Operacional.row;
  tbl_SMO_Sistema : list SMO_Sistema.row;
  tbl_registros_operacionais : list registros_operacionais.row;
  calls : list Call
}.

(** What the environment does while the code runs: the health of the read,
    of the insert and of the update, whether [fetch] resolves or rejects,
    and what [new Date()] prints. *)
Record Conditions := {
  select_health : Health;
  insert_health : Health;
  update_health : Health;
  fetch_health : Health;
  toISOString : string;
  toLocaleString_ptBR : string
}.

Module Supabase.

(** [const { data, error } = await query], or the exception it threw. *)
Inductive Settled (R : Type) :=
| Resolved (data : option (list R)) (error : option Error)
| Rejected (e : Error).
Arguments Resolved {R} data error.
Arguments Rejected {R} e.

Definition settle {R : Type} (h : Health) (rows : list R) : Settled R :=
  match h with
  | Healthy => Resolved (Some rows) None
  | ReportsError e => Resolved None (Some e)
  | NoData => Resolved None None
  | Throws e => Rejected e
  end.

(** The filters of the query builder, as the store applies them. *)
Definition eq {R : Type} (col : R -> value) (v : string) (q : list R) : list R :=
  filter (fun r => value_eqb (col r) (Some v)) q.

Definition is_null {R : Type} (col : R -> value) (q : list R) : list R :=
  filter (fun r => match col r with None => true | Some _ => false end) q.

Definition not_is_null {R : Type} (col : R -> value) (q : list R) : list R :=
  filter (fun r => match col r with None => false | Some _ => true end) q.

(** [.neq(col, null)]: the rows whose column is not absent. *)
Definition neq_null {R : Type} (col : R -> value) (q : list R) : list R :=
  filter (fun r => match col r with None => false | Some _ => true end) q.

(** [data || []] *)
Definition or_empty {R : Type} (data : option (list R)) : list R :=
  match data with
  | Some d => d
  | None => []
  end.

End Supabase.
Import Supabase.

(* ================================================================== *)
(** * Asynchronous code: requests, exceptions and [try]/[catch]         *)
(* ================================================================== *)

(** What [submitManifestoAction] resolves to. *)
Record ActionResult := { success : bool; message : string }.

Module Async.

Inductive Completion (A : Type) :=
| Returned (a : A)
| Thrown (e : Error).
Arguments Returned {A} a.
Arguments Thrown {A} e.

(** A computation reads the conditions, changes the world, and either
    returns or throws; what it did before throwing stays done. *)
Definition t (A : Type) : Type := Conditions -> World -> Completion A * World.

Definition ret {A : Type} (a : A) : t A := fun _ w => (Returned a, w).

Definition bind {A B : Type} (m : t A) (k : A -> t B) : t B :=
  fun c w =>
    match m c w with
    | (Returned a, w') => k a c w'
    | (Thrown e, w') => (Thrown e, w')
    end.

Definition try_catch {A : Type} (body : t A) (handler : Error -> t A) : t A :=
  fun c w =>
    match body c w with
    | (Returned a, w') => (Returned a, w')
    | (Thrown e, w') => handler e c w'
    end.

Definition asks {A : Type} (f : Conditions -> A) : t A :=
  fun c w => (Returned (f c), w).

Definition issue (k : Call) (w : World) : World :=
  {| tbl_Cadastro_Operacional := tbl_Cadastro_Operacional w;
     tbl_SMO_Sistema := tbl_SMO_Sistema w;
     tbl_registros_operacionais := tbl_registros_operacionais w;
     calls := calls w ++ [k] |}.

Definition append_registro (r : registros_operacionais.row) (w : World) : World :=
  {| tbl_Cadastro_Operacional := tbl_Cadastro_Operacional w;
     tbl_SMO_Sistema := tbl_SMO_Sistema w;
     tbl_registros_operacionais := tbl_registros_operacionais w ++ [r];
     calls := calls w |}.

Definition set_status (newStatus name : string) (r : SMO_Sistema.row)
  : SMO_Sistema.row :=
  {| SMO_Sistema.ID_Manifesto := SMO_Sistema.ID_Manifesto r;
     SMO_Sistema.Status := Some newStatus;
     SMO_Sistema.Usuario_Operacao := Some name;
     SMO_Sistema.Usuario_Operação := SMO_Sistema.Usuario_Operação r;
     SMO_Sistema.Usuario := SMO_Sistema.Usuario r;
     SMO_Sistema.CIA := SMO_Sistema.CIA r;
     SMO_Sistema.Manifesto_Disponivel := SMO_Sistema.Manifesto_Disponivel r;
     SMO_Sistema.Manifesto_Iniciado := SMO_Sistema.Manifesto_Iniciado r |}.

Definition update_rows (newStatus name id : string) (w : World) : World :=
  {| tbl_Cadastro_Operacional := tbl_Cadastro_Operacional w;
     tbl_SMO_Sistema :=
       map (fun r => if value_eqb (SMO_Sistema.ID_Manifesto r) (Some id)
                     then set_status newStatus name r else r)
           (tbl_SMO_Sistema w);
     tbl_registros_operacionais := tbl_registros_operacionais w;
     calls := calls w |}.

(** [const { error } = await supabase.from('registros_operacionais').insert([r])] *)
Definition insert_registros_operacionais (r : registros_operacionais.row)
  : t (option Error) :=
  fun c w =>
    let w1 := issue (Insert r) w in
    match insert_health c with
    | Healthy | NoData => (Returned None, append_registro r w1)
    | ReportsError e => (Returned (Some e), w1)
    | Throws e => (Thrown e, w1)
    end.

(** [await supabase.from('SMO_Sistema').update({Status, Usuario_Operacao})
    .eq('ID_Manifesto', id)]; what it resolves to is not looked at. *)
Definition update_SMO_Sistema (newStatus name id : string) : t unit :=
  fun c w =>
    let w1 := issue (Update newStatus name id) w in
    match update_health c with
    | Healthy | NoData => (Returned tt, update_rows newStatus name id w1)
    | ReportsError _ => (Returned tt, w1)
    | Throws e => (Thrown e, w1)
    end.

(** [await fetch(url, {method: 'POST', headers, body: JSON.stringify(body)})];
    it rejects on a network failure only, and the response is not read. *)
Definition fetch_POST (url : string) (body : list (string * string)) : t unit :=
  fun c w =>
    let w1 := issue (Post url body) w in
    match fetch_health c with
    | Throws e => (Thrown e, w1)
    | _ => (Returned tt, w1)
    end.

Definition console_error (label : string) (e : Error) : t unit :=
  fun _ w => (Returned tt, issue (ConsoleError label e) w).

End Async.

Declare Scope async_scope.
Delimit Scope async_scope with async.
Notation "x <- m ;; k" := (Async.bind m (fun x => k))
  (at level 61, m at next level, right associativity) : async_scope.
Notation "m ;; k" := (Async.bind m (fun _ => k))
  (at level 61, right associativity) : async_scope.
Notation "'try' body 'catch' handler" := (Async.try_catch body handler)
  (at level 62, body at level 61, handler at level 61) : async_scope.
Local Open Scope async_scope.

(* ================================================================== *)
(** * The read operations                                              *)
(* ================================================================== *)

(** [src/services/api.ts]; [src/unnamed/part_000] has the same read
    operations word for word. *)
Module Services_api.

Definition fetchNames (status : option string) (c : Conditions) (w : World)
  : list value :=
  match settle (select_health c) (tbl_Cadastro_Operacional w) with
  | Rejected _ => []
  | Resolved _ (Some _) => []
  | Resolved None None => []
  | Resolved (Some data) None =>
      let uniqueNames :=
        filter Boolean
          (Array_from_Set (map Cadastro_Operacional.Usuario_Operação data)) in
      sort uniqueNames
  end.

Definition fetchIdsByStatus (status : string) (c : Conditions) (w : World)
  : list value :=
  match settle (select_health c)
               (eq SMO_Sistema.Status status (tbl_SMO_Sistema w)) with
  | Rejected _ => []
  | Resolved _ (Some _) => []
  | Resolved None None => []
  | Resolved (Some data) None =>
      let uniqueIds :=
        filter Boolean (Array_from_Set (map SMO_Sistema.ID_Manifesto data)) in
      sort uniqueIds
  end.

Definition fetchManifestosForEmployee (name : string) (c : Conditions)
  (w : World) : list value :=
  match settle (select_health c)
               (eq SMO_Sistema.Status "Manifesto Iniciado"
                  (eq SMO_Sistema.Usuario_Operacao name (tbl_SMO_Sistema w))) with
  | Rejected _ => []
  | Resolved _ (Some _) => []
  | Resolved None None => []
  | Resolved (Some data) None => map SMO_Sistema.ID_Manifesto data
  end.

Definition fetchCIAs (c : Conditions) (w : World) : list value :=
  match settle (select_health c)
               (neq_null SMO_Sistema.CIA (tbl_SMO_Sistema w)) with
  | Rejected _ => []
  | Resolved _ (Some _) => [Some "CIA A"; Some "CIA B"; Some "CIA C"]
  | Resolved data None =>
      let uniqueCias :=
        Array_from_Set (map SMO_Sistema.CIA (or_empty data)) in
      sort uniqueCias
  end.

Definition fetchManifestosByCIA (cia : string) (c : Conditions) (w : World)
  : list value :=
  match settle (select_health c)
               (eq SMO_Sistema.CIA cia (tbl_SMO_Sistema w)) with
  | Rejected _ => []
  | Resolved _ (Some _) => []
  | Resolved data None => map SMO_Sistema.ID_Manifesto (or_empty data)
  end.

Definition submitManifestoAction (action id name : string) : Async.t ActionResult :=
  try (
    now <- Async.asks toISOString ;;
    error <- Async.insert_registros_operacionais
               {| registros_operacionais.manifesto_id := id;
                  registros_operacionais.acao := action;
                  registros_operacionais.nome := name;
                  registros_operacionais.created_at := now |} ;;
    match error with
    | None =>
        let newStatus :=
          if (action =? "Iniciar Puxe")%string
          then "Manifesto Iniciado" else "Manifesto Finalizado" in
        Async.update_SMO_Sistema newStatus name id
    | Some _ => Async.ret tt
    end ;;
    if (action =? "Iniciar Puxe")%string then
      Async.ret {| success := true; message := "Puxe registrado com sucesso!" |}
    else if (action =? "Finalizar Puxe")%string then
      Async.ret {| success := true; message := "Obrigado, puxe concluído!" |}
    else
      Async.ret {| success := true; message := "Registro salvo com sucesso!" |}
  ) catch (fun error =>
    Async.ret {| success := false;
                 message := ("Erro ao processar: " ++ Js.message error)%string |}).

End Services_api.

(** [src/unnamed/part_000]: the action labels become "Iniciar Manifesto" and
    "Finalizar Manifesto", and the start action notifies a webhook. The read
    operations are those of [Services_api]. *)
Module Part_000.

Definition submitManifestoAction (action id name : string) : Async.t ActionResult :=
  try (
    now <- Async.asks toISOString ;;
    error <- Async.insert_registros_operacionais
               {| registros_operacionais.manifesto_id := id;
                  registros_operacionais.acao := action;
                  registros_operacionais.nome := name;
                  registros_operacionais.created_at := now |} ;;
    match error with
    | None =>
        let newStatus :=
          if (action =? "Iniciar Manifesto")%string
          then "Manifesto Iniciado" else "Manifesto Finalizado" in
        Async.update_SMO_Sistema newStatus name id
    | Some _ => Async.ret tt
    end ;;
    (if (action =? "Iniciar Manifesto")%string then
       try (
         formattedDate <- Async.asks toLocaleString_ptBR ;;
         Async.fetch_POST
           "https://projeto-teste-n8n.ly7t0m.easypanel.host/webhook/Iniciar-Manifesto"
           [("id_manifesto", id); ("nome", name);
            ("Manifesto_Iniciado", formattedDate)]
       ) catch (fun webhookError =>
         Async.console_error "Webhook error:" webhookError)
     else Async.ret tt) ;;
    if (action =? "Iniciar Manifesto")%string then
      Async.ret {| success := true; message := "Manifesto iniciado com sucesso!" |}
    else if (action =? "Finalizar Manifesto")%string then
      Async.ret {| success := true; message := "Manifesto finalizado com sucesso!" |}
    else
      Async.ret {| success := true; message := "Registro salvo com sucesso!" |}
  ) catch (fun error =>
    Async.ret {| success := false;
                 message := ("Erro ao processar: " ++ Js.message error)%string |}).

End Part_000.

(** [src/unnamed/part_001]: the revision that decides finalization by the
    two marker columns. *)
Module Part_001.

Definition fetchNames (status : option string) (c : Conditions) (w : World)
  : list value :=
  match settle (select_health c) (tbl_Cadastro_Operacional w) with
  | Rejected _ => []
  | Resolved _ (Some _) => []
  | Resolved None None => []
  | Resolved (Some data) None =>
      let uniqueNames :=
        filter Boolean
          (Array_from_Set (map Cadastro_Operacional.Usuario_Operação data)) in
      sort uniqueNames
  end.

(** [item.Usuario_Operacao || item['Usuario_Operação'] || item.Usuario] *)
Definition employee_of (item : SMO_Sistema.row) : value :=
  if Boolean (SMO_Sistema.Usuario_Operacao item)
  then SMO_Sistema.Usuario_Operacao item
  else if Boolean (SMO_Sistema.Usuario_Operação item)
       then SMO_Sistema.Usuario_Operação item
       else SMO_Sistema.Usuario item.

Definition fetchNamesForFinalization (c : Conditions) (w : World)
  : list value :=
  match settle (select_health c)
               (not_is_null SMO_Sistema.Manifesto_Iniciado
                  (is_null SMO_Sistema.Manifesto_Disponivel (tbl_SMO_Sistema w))) with
  | Rejected _ => []
  | Resolved _ (Some _) => []
  | Resolved None None => []
  | Resolved (Some data) None =>
      let uniqueNames :=
        filter Boolean (Array_from_Set (map employee_of data)) in
      sort uniqueNames
  end.

Definition fetchIdsByStatus (status : string) (c : Conditions) (w : World)
  : list value :=
  match settle (select_health c)
               (eq SMO_Sistema.Status status (tbl_SMO_Sistema w)) with
  | Rejected _ => []
  | Resolved _ (Some _) => []
  | Resolved None None => []
  | Resolved (Some data) None =>
      let uniqueIds :=
        filter Boolean (Array_from_Set (map SMO_Sistema.ID_Manifesto data)) in
      sort uniqueIds
  end.

Definition fetchNamesByStatus (status : string) (c : Conditions) (w : World)
  : list value :=
  match settle (select_health c)
               (eq SMO_Sistema.Status status (tbl_SMO_Sistema w)) with
  | Rejected _ => []
  | Resolved _ (Some _) => []
  | Resolved None None => []
  | Resolved (Some data) None =>
      let uniqueNames :=
        filter Boolean (Array_from_Set (map employee_of data)) in
      sort uniqueNames
  end.

Definition fetchManifestosForEmployee (name : string) (c : Conditions)
  (w : World) : list value :=
  match settle (select_health c)
               (not_is_null SMO_Sistema.Manifesto_Iniciado
                  (is_null SMO_Sistema.Manifesto_Disponivel
                     (eq SMO_Sistema.Usuario_Operacao name (tbl_SMO_Sistema w)))) with
  | Rejected _ => []
  | Resolved _ (Some _) => []
  | Resolved None None => []
  | Resolved (Some data) None => map SMO_Sistema.ID_Manifesto data
  end.

Definition fetchCIAs (c : Conditions) (w : World) : list value :=
  match settle (select_health c)
               (neq_null SMO_Sistema.CIA (tbl_SMO_Sistema w)) with
  | Rejected _ => []
  | Resolved _ (Some _) => [Some "CIA A"; Some "CIA B"; Some "CIA C"]
  | Resolved data None =>
      let uniqueCias :=
        Array_from_Set (map SMO_Sistema.CIA (or_empty data)) in
      sort uniqueCias
  end.

Definition fetchManifestosByCIA (cia : string) (c : Conditions) (w : World)
  : list value :=
  match settle (select_health c)
               (eq SMO_Sistema.CIA cia (tbl_SMO_Sistema w)) with
  | Rejected _ => []
  | Resolved _ (Some _) => []
  | Resolved data None => map SMO_Sistema.ID_Manifesto (or_empty data)
  end.

Definition submitManifestoAction (action id name : string) : Async.t ActionResult :=
  try (
    now <- Async.asks toISOString ;;
    error <- Async.insert_registros_operacionais
               {| registros_operacionais.manifesto_id := id;
                  registros_operacionais.acao := action;
                  registros_operacionais.nome := name;
                  registros_operacionais.created_at := now |} ;;
    match error with
    | None =>
        let newStatus :=
          if (action =? "Iniciar Manifesto")%string
          then "Manifesto Iniciado" else "Manifesto Finalizado" in
        Async.update_SMO_Sistema newStatus name id
    | Some _ => Async.ret tt
    end ;;
    let webhookUrl :=
      if (action =? "Iniciar Manifesto")%string
      then "https://projeto-teste-n8n.ly7t0m.easypanel.host/webhook/Iniciar-Manifesto"
      else "https://projeto-teste-n8n.ly7t0m.easypanel.host/webhook/Manifesto-Operacional" in
    formattedDate <- Async.asks toLocaleString_ptBR ;;
    let webhookBody :=
      if (action =? "Iniciar Manifesto")%string then
        [("id_manifesto", id); ("nome", name);
         ("Manifesto_Iniciado", formattedDate)]
      else if (action =? "Finalizar Manifesto")%string then
        [("id_manifesto", id); ("nome", name);
         ("Manifesto_Finalizado", formattedDate)]
      else [] in
    (if (0 <? List.length webhookBody)%nat then
       try Async.fetch_POST webhookUrl webhookBody
       catch (fun webhookError =>
         Async.console_error "Webhook error:" webhookError)
     else Async.ret tt) ;;
    if (action =? "Iniciar Manifesto")%string then
      Async.ret {| success := true; message := "Manifesto iniciado com sucesso!" |}
    else if (action =? "Finalizar Manifesto")%string then
      Async.ret {| success := true; message := "Manifesto finalizado com sucesso!" |}
    else
      Async.ret {| success := true; message := "Registro salvo com sucesso!" |}
  ) catch (fun error =>
    Async.ret {| success := false;
                 message := ("Erro ao processar: " ++ Js.message error)%string |}).

End Part_001.

(* ================================================================== *)
(** * The root component ([src/App.tsx])                                *)
(* ================================================================== *)

Module App.

(** [type ActionType = '' | 'Iniciar Puxe' | 'Finalizar Puxe'] *)
Inductive ActionType := NoAction | Iniciar_Puxe | Finalizar_Puxe.

Definition label (a : ActionType) : string :=
  match a with
  | NoAction => ""
  | Iniciar_Puxe => "Iniciar Puxe"
  | Finalizar_Puxe => "Finalizar Puxe"
  end.

Definition ActionType_eqb (a b : ActionType) : bool :=
  match a, b with
  | NoAction, NoAction => true
  | Iniciar_Puxe, Iniciar_Puxe => true
  | Finalizar_Puxe, Finalizar_Puxe => true
  | _, _ => false
  end.

(** [FeedbackMessage]: [type] is ['success' | 'error' | '']. *)
Inductive FeedbackType := type_success | type_error | type_empty.
Record FeedbackMessage := { text : string; type : FeedbackType }.

(** The [useState] cells of the component. *)
Record State := {
  action : ActionType;
  name : string;
  selectedManifestoId : string;
  namesList : list string;
  idsList : list string;
  manifestosForEmployee : list string;
  loading : bool;
  loadingMessage : string;
  updating : bool;
  feedback : FeedbackMessage;
  lastSubmission : option string
}.

Definition setAction (v : ActionType) (s : State) : State :=
  {| action := v; name := name s; selectedManifestoId := selectedManifestoId s;
     namesList := namesList s; idsList := idsList s;
     manifestosForEmployee := manifestosForEmployee s; loading := loading s;
     loadingMessage := loadingMessage s; updating := updating s;
     feedback := feedback s; lastSubmission := lastSubmission s |}.

Definition setName (v : string) (s : State) : State :=
  {| action := action s; name := v; selectedManifestoId := selectedManifestoId s;
     namesList := namesList s; idsList := idsList s;
     manifestosForEmployee := manifestosForEmployee s; loading := loading s;
     loadingMessage := loadingMessage s; updating := updating s;
     feedback := feedback s; lastSubmission := lastSubmission s |}.

Definition setSelectedManifestoId (v : string) (s : State) : State :=
  {| action := action s; name := name s; selectedManifestoId := v;
     namesList := namesList s; idsList := idsList s;
     manifestosForEmployee := manifestosForEmployee s; loading := loading s;
     loadingMessage := loadingMessage s; updating := updating s;
     feedback := feedback s; lastSubmission := lastSubmission s |}.

Definition setNamesList (v : list string) (s : State) : State :=
  {| action := action s; name := name s; selectedManifestoId := selectedManifestoId s;
     namesList := v; idsList := idsList s;
     manifestosForEmployee := manifestosForEmployee s; loading := loading s;
     loadingMessage := loadingMessage s; updating := updating s;
     feedback := feedback s; lastSubmission := lastSubmission s |}.

Definition setIdsList (v : list string) (s : State) : State :=
  {| action := action s; name := name s; selectedManifestoId := selectedManifestoId s;
     namesList := namesList s; idsList := v;
     manifestosForEmployee := manifestosForEmployee s; loading := loading s;
     loadingMessage := loadingMessage s; updating := updating s;
     feedback := feedback s; lastSubmission := lastSubmission s |}.

Definition setManifestosForEmployee (v : list string) (s : State) : State :=
  {| action := action s; name := name s; selectedManifestoId := selectedManifestoId s;
     namesList := namesList s; idsList := idsList s;
     manifestosForEmployee := v; loading := loading s;
     loadingMessage := loadingMessage s; updating := updating s;
     feedback := feedback s; lastSubmission := lastSubmission s |}.

Definition setLoading (v : bool) (s : State) : State :=
  {| action := action s; name := name s; selectedManifestoId := selectedManifestoId s;
     namesList := namesList s; idsList := idsList s;
     manifestosForEmployee := manifestosForEmployee s; loading := v;
     loadingMessage := loadingMessage s; updating := updating s;
     feedback := feedback s; lastSubmission := lastSubmission s |}.

Definition setLoadingMessage (v : string) (s : State) : State :=
  {| action := action s; name := name s; selectedManifestoId := selectedManifestoId s;
     namesList := namesList s; idsList := idsList s;
     manifestosForEmployee := manifestosForEmployee s; loading := loading s;
     loadingMessage := v; updating := updating s;
     feedback := feedback s; lastSubmission := lastSubmission s |}.

Definition setUpdating (v : bool) (s : State) : State :=
  {| action := action s; name := name s; selectedManifestoId := selectedManifestoId s;
     namesList := namesList s; idsList := idsList s;
     manifestosForEmployee := manifestosForEmployee s; loading := loading s;
     loadingMessage := loadingMessage s; updating := v;
     feedback := feedback s; lastSubmission := lastSubmission s |}.

Definition setFeedback (v : FeedbackMessage) (s : State) : State :=
  {| action := action s; name := name s; selectedManifestoId := selectedManifestoId s;
     namesList := namesList s; idsList := idsList s;
     manifestosForEmployee := manifestosForEmployee s; loading := loading s;
     loadingMessage := loadingMessage s; updating := updating s;
     feedback := v; lastSubmission := lastSubmission s |}.

Definition setLastSubmission (v : option string) (s : State) : State :=
  {| action := action s; name := name s; selectedManifestoId := selectedManifestoId s;
     namesList := namesList s; idsList := idsList s;
     manifestosForEmployee := manifestosForEmployee s; loading := loading s;
     loadingMessage := loadingMessage s; updating := updating s;
     feedback := feedback s; lastSubmission := v |}.

(** The state of the first render. *)
Definition initial : State :=
  {| action := NoAction; name := ""; selectedManifestoId := "";
     namesList := []; idsList := []; manifestosForEmployee := [];
     loading := false; loadingMessage := "Processando..."; updating := false;
     feedback := {| text := ""; type := type_empty |};
     lastSubmission := None |}.

(** What the callback of [setTimeout(async () => ..., 1500)] closes over. *)
Record Closure := {
  captured_action : ActionType;
  captured_selectedManifestoId : string;
  captured_name : string;
  submissionKey : string
}.

(** What a handler starts besides setting state. *)
Inductive Command :=
| CallSubmitAfter (ms : nat) (k : Closure)
| ClearFeedbackAfter (ms : nat)
| EndUpdatingAfter (ms : nat)
| CallFetchNames (status : option string)
| CallFetchIdsByStatus (status : string)
| CallFetchManifestosForEmployee (name : string).

Definition lastSubmission_is (key : string) (s : State) : bool :=
  match lastSubmission s with
  | Some k => (k =? key)%string
  | None => false
  end.

(** [`${action}-${selectedManifestoId}-${name}`] *)
Definition make_submissionKey (a : ActionType) (id nm : string) : string :=
  (label a ++ "-" ++ id ++ "-" ++ nm)%string.

Section Handlers.

(** [String.prototype.toLowerCase] *)
Variable toLowerCase : string -> string.

Definition handleSubmit (s : State) : State * list Command :=
  let s1 := setFeedback {| text := ""; type := type_empty |} s in
  if ActionType_eqb (action s) NoAction then (s1, [])
  else if ActionType_eqb (action s) Iniciar_Puxe
          && ((name s =? "")%string || (selectedManifestoId s =? "")%string)
  then (setFeedback {| text := "Preencha todos os campos."; type := type_error |} s1, [])
  else if ActionType_eqb (action s) Finalizar_Puxe
          && ((name s =? "")%string || (selectedManifestoId s =? "")%string)
  then (setFeedback {| text := "Preencha todos os campos."; type := type_error |} s1, [])
  else if ActionType_eqb (action s) Iniciar_Puxe
          && (0 <? List.length (namesList s))%nat
          && negb (existsb (fun n => (toLowerCase n =? toLowerCase (name s))%string)
                           (namesList s))
  then (setFeedback {| text := "Por favor, escolha um nome válido da lista.";
                       type := type_error |} s1, [])
  else
    let key := make_submissionKey (action s) (selectedManifestoId s) (name s) in
    if lastSubmission_is key s
    then (setFeedback {| text := "Este registro já foi enviado recentemente!";
                         type := type_error |} s1, [])
    else
      (setLoadingMessage "Processando..." (setLoading true s1),
       [CallSubmitAfter 1500
          {| captured_action := action s;
             captured_selectedManifestoId := selectedManifestoId s;
             captured_name := name s;
             submissionKey := key |}]).

End Handlers.

(** [loadNames], [loadIds], [loadIdsFinalization]: what each sets and the
    read it awaits; the matching [...Loaded] event below is its
    continuation. *)
Definition loadNames (s : State) : State * list Command :=
  (s, [CallFetchNames None]).

Definition loadIds (s : State) : State * list Command :=
  (setUpdating true s, [CallFetchIdsByStatus "Manifesto Recebido"]).

Definition loadIdsFinalization (s : State) : State * list Command :=
  (setUpdating true s, [CallFetchNames (Some "Manifesto Iniciado")]).

(** [a(); b()] for two loaders. *)
Definition both (f g : State -> State * list Command) (s : State)
  : State * list Command :=
  let (s1, c1) := f s in
  let (s2, c2) := g s1 in
  (s2, c1 ++ c2).

(** The body of the timeout callback, once [submitManifestoAction] has
    resolved to [result]; [s] is the state at that moment. *)
Definition submitSettled (k : Closure) (result : ActionResult) (s : State)
  : State * list Command :=
  let s1 := setLoading false s in
  if success result then
    let s2 := setFeedback {| text := message result; type := type_success |} s1 in
    let s3 := setLastSubmission (Some (submissionKey k)) s2 in
    if ActionType_eqb (captured_action k) Finalizar_Puxe then
      let s4 :=
        setManifestosForEmployee
          (filter (fun id => negb (id =? captured_selectedManifestoId k)%string)
                  (manifestosForEmployee s3)) s3 in
      (setSelectedManifestoId "" s4, [ClearFeedbackAfter 3000])
    else
      let s4 := setName "" (setSelectedManifestoId "" s3) in
      let (s5, cmds) := loadIds s4 in
      (s5, cmds ++ [ClearFeedbackAfter 3000])
  else
    (setFeedback {| text := message result; type := type_error |} s1, []).

(** The effect that runs when [action] has changed. *)
Definition actionChanged (s : State) : State * list Command :=
  let s1 := setManifestosForEmployee []
              (setSelectedManifestoId ""
                 (setName "" (setFeedback {| text := ""; type := type_empty |} s))) in
  match action s with
  | Iniciar_Puxe => both loadNames loadIds s1
  | Finalizar_Puxe => loadIdsFinalization s1
  | NoAction => (s1, [])
  end.

(** [handleNameChange(val)]: the state it sets before it awaits. *)
Definition handleNameChange (val : string) (s : State) : State * list Command :=
  let s1 := setSelectedManifestoId "" (setName val s) in
  if ActionType_eqb (action s) Finalizar_Puxe && negb (val =? "")%string
  then (s1, [CallFetchManifestosForEmployee val])
  else (setManifestosForEmployee [] s1, []).

(** [handleRefresh] *)
Definition handleRefresh (s : State) : State * list Command :=
  if updating s then (s, [])
  else match action s with
       | Iniciar_Puxe => both loadIds loadNames s
       | Finalizar_Puxe => loadIdsFinalization s
       | NoAction => (s, [])
       end.

(** The two [postgres_changes] handlers of the realtime channel. *)
Definition onChange_SMO_Sistema (s : State) : State * list Command :=
  match action s with
  | Iniciar_Puxe => loadIds s
  | Finalizar_Puxe =>
      if negb (name s =? "")%string
      then (s, [CallFetchManifestosForEmployee (name s)])
      else (s, [])
  | NoAction => (s, [])
  end.

Definition onChange_Cadastro_Operacional (s : State) : State * list Command :=
  match action s with
  | Iniciar_Puxe => loadNames s
  | Finalizar_Puxe => loadIdsFinalization s
  | NoAction => (s, [])
  end.

(** Everything that can happen to the component; choosing the action
    already selected changes no state, so the effect on [action] does not
    run. *)
Inductive Event :=
| ChooseAction (a : ActionType)
| TypeName (v : string)
| ChooseName (v : string)
| ChooseId (id : string)
| ClickRefresh
| ClickSubmit
| SubmitSettled (k : Closure) (result : ActionResult)
| Changed_SMO_Sistema
| Changed_Cadastro_Operacional
| NamesLoaded (names : list string)
| FinalizationNamesLoaded (names : list string)
| IdsLoaded (ids : list string)
| ManifestosLoaded (ids : list string)
| UpdatingTimeout
| FeedbackTimeout.

Definition step (toLowerCase : string -> string) (e : Event) (s : State)
  : State * list Command :=
  match e with
  | ChooseAction a =>
    if ActionType_eqb a (action s) then (s, [])
    else actionChanged (setAction a s)
  | TypeName v => (setName v s, [])
  | ChooseName v => handleNameChange v s
  | ChooseId id => (setSelectedManifestoId id s, [])
  | ClickRefresh => handleRefresh s
  | ClickSubmit => handleSubmit toLowerCase s
  | SubmitSettled k result => submitSettled k result s
  | Changed_SMO_Sistema => onChange_SMO_Sistema s
  | Changed_Cadastro_Operacional => onChange_Cadastro_Operacional s
  | NamesLoaded names => (setNamesList names s, [])
  | FinalizationNamesLoaded names => (setNamesList names s, [EndUpdatingAfter 500])
  | IdsLoaded ids => (setIdsList ids s, [EndUpdatingAfter 500])
  | ManifestosLoaded ids => (setManifestosForEmployee ids s, [])
  | UpdatingTimeout => (setUpdating false s, [])
  | FeedbackTimeout => (setFeedback {| text := ""; type := type_empty |} s, [])
  end.

(** ASCII lower-casing, which is what [toLowerCase] does on ASCII text. *)
Definition ascii_toLowerCase (c : ascii) : ascii :=
  let n := nat_of_ascii c in
  if ((65 <=? n) && (n <=? 90))%nat then ascii_of_nat (n + 32) else c.

Fixpoint ascii_lower (s : string) : string :=
  match s with
  | EmptyString => EmptyString
  | String c r => String (ascii_toLowerCase c) (ascii_lower r)
  end.

End App.

(* ================================================================== *)
(** * The specification's vocabulary, and concrete data                 *)
(* ================================================================== *)

(** The conditions the specification states its properties in, written from
    its words and compared with the code below. *)
Module Spec.

(** The condition of the specification, word for word: "acting-employee
    column equals the given name AND availability marker absent/empty AND
    started marker present/non-empty". Absent is NULL, empty is the empty
    text. *)
Definition eligible_as_worded (name : string) (r : SMO_Sistema.row) : bool :=
  value_eqb (SMO_Sistema.Usuario_Operacao r) (Some name)
  && negb (Boolean (SMO_Sistema.Manifesto_Disponivel r))
  && Boolean (SMO_Sistema.Manifesto_Iniciado r).

(** The amended condition for the marker-column revision: acting employee
    equals the name, [Manifesto_Disponivel] is NULL, [Manifesto_Iniciado] is
    not NULL; an empty text is a value, not NULL. *)
Definition listed_by_markers (name : string) (r : SMO_Sistema.row) : bool :=
  value_eqb (SMO_Sistema.Usuario_Operacao r) (Some name)
  && match SMO_Sistema.Manifesto_Disponivel r with None => true | Some _ => false end
  && match SMO_Sistema.Manifesto_Iniciado r with None => false | Some _ => true end.

(** The amended condition for the earlier revisions: acting employee equals
    the name and [Status] is "Manifesto Iniciado". *)
Definition listed_by_Status (name : string) (r : SMO_Sistema.row) : bool :=
  value_eqb (SMO_Sistema.Usuario_Operacao r) (Some name)
  && value_eqb (SMO_Sistema.Status r) (Some "Manifesto Iniciado").

(** The same table with the [Status] of every row replaced. *)
Definition with_Status (f : SMO_Sistema.row -> value) (r : SMO_Sistema.row)
  : SMO_Sistema.row :=
  {| SMO_Sistema.ID_Manifesto := SMO_Sistema.ID_Manifesto r;
     SMO_Sistema.Status := f r;
     SMO_Sistema.Usuario_Operacao := SMO_Sistema.Usuario_Operacao r;
     SMO_Sistema.Usuario_Operação := SMO_Sistema.Usuario_Operação r;
     SMO_Sistema.Usuario := SMO_Sistema.Usuario r;
     SMO_Sistema.CIA := SMO_Sistema.CIA r;
     SMO_Sistema.Manifesto_Disponivel := SMO_Sistema.Manifesto_Disponivel r;
     SMO_Sistema.Manifesto_Iniciado := SMO_Sistema.Manifesto_Iniciado r |}.

Definition with_Usuario_Operacao (v : value) (r : SMO_Sistema.row)
  : SMO_Sistema.row :=
  {| SMO_Sistema.ID_Manifesto := SMO_Sistema.ID_Manifesto r;
     SMO_Sistema.Status := SMO_Sistema.Status r;
     SMO_Sistema.Usuario_Operacao := v;
     SMO_Sistema.Usuario_Operação := SMO_Sistema.Usuario_Operação r;
     SMO_Sistema.Usuario := SMO_Sistema.Usuario r;
     SMO_Sistema.CIA := SMO_Sistema.CIA r;
     SMO_Sistema.Manifesto_Disponivel := SMO_Sistema.Manifesto_Disponivel r;
     SMO_Sistema.Manifesto_Iniciado := SMO_Sistema.Manifesto_Iniciado r |}.

Definition relabel_Status (f : SMO_Sistema.row -> value) (w : World) : World :=
  {| tbl_Cadastro_Operacional := tbl_Cadastro_Operacional w;
     tbl_SMO_Sistema := map (with_Status f) (tbl_SMO_Sistema w);
     tbl_registros_operacionais := tbl_registros_operacionais w;
     calls := calls w |}.

(** "the log insert succeeded": the promise resolved and carried no error. *)
Definition succeeded (h : Health) : bool :=
  match h with
  | Healthy | NoData => true
  | ReportsError _ | Throws _ => false
  end.

Definition threw (h : Health) : bool :=
  match h with
  | Throws _ => true
  | _ => false
  end.

(** [a] comes no later than [b] in ascending string order. *)
Definition js_le (a b : value) : Prop :=
  (toString a <=? toString b)%string = true.

(** The log row of a submission: id, action label, name, ISO timestamp. *)
Definition log_row (action id name : string) (c : Conditions)
  : registros_operacionais.row :=
  {| registros_operacionais.manifesto_id := id;
     registros_operacionais.acao := action;
     registros_operacionais.nome := name;
     registros_operacionais.created_at := toISOString c |}.

(** The fallback list of company codes. *)
Definition fallback_CIAs : list value :=
  [Some "CIA A"; Some "CIA B"; Some "CIA C"].

Definition webhook_Iniciar_Manifesto : string :=
  "https://projeto-teste-n8n.ly7t0m.easypanel.host/webhook/Iniciar-Manifesto".

Definition is_Post (k : Call) : bool :=
  match k with
  | Post _ _ => true
  | _ => false
  end.

Definition is_Update (k : Call) : bool :=
  match k with
  | Update _ _ _ => true
  | _ => false
  end.

(** The checks a submission has to pass before the duplicate guard: an
    action is selected; name and manifest id are both non-empty; and, for
    the start action with a non-empty name list, the name matches an entry
    of the list regardless of case. *)
Definition passes_validation (toLowerCase : string -> string) (s : App.State)
  : bool :=
  negb (App.ActionType_eqb (App.action s) App.NoAction)
  && negb (App.name s =? "")%string
  && negb (App.selectedManifestoId s =? "")%string
  && (negb (App.ActionType_eqb (App.action s) App.Iniciar_Puxe)
      || (List.length (App.namesList s) =? 0)%nat
      || existsb (fun n => (toLowerCase n =? toLowerCase (App.name s))%string)
                 (App.namesList s)).

(** The fingerprint of the form as it stands. *)
Definition fingerprint (s : App.State) : string :=
  App.make_submissionKey (App.action s) (App.selectedManifestoId s) (App.name s).

(** Error feedback and nothing started. *)
Definition rejected (msg : string) (s : App.State)
  : App.State * list App.Command :=
  (App.setFeedback {| App.text := msg; App.type := App.type_error |} s, []).

(** The overlay is shown and the call to the backend is scheduled. *)
Definition proceeds (s : App.State) : App.State * list App.Command :=
  (App.setLoadingMessage "Processando..."
     (App.setLoading true
        (App.setFeedback {| App.text := ""; App.type := App.type_empty |} s)),
   [App.CallSubmitAfter 1500
      {| App.captured_action := App.action s;
         App.captured_selectedManifestoId := App.selectedManifestoId s;
         App.captured_name := App.name s;
         App.submissionKey := fingerprint s |}]).

(** The same conditions, except for what [fetch] does. *)
Definition with_fetch_health (h : Health) (c : Conditions) : Conditions :=
  {| select_health := select_health c;
     insert_health := insert_health c;
     update_health := update_health c;
     fetch_health := h;
     toISOString := toISOString c;
     toLocaleString_ptBR := toLocaleString_ptBR c |}.

End Spec.

Module Fixture.

Definition conditions (sel ins upd fet : Health) : Conditions :=
  {| select_health := sel;
     insert_health := ins;
     update_health := upd;
     fetch_health := fet;
     toISOString := "2025-01-15T12:00:00.000Z";
     toLocaleString_ptBR := "15/01/2025, 09:00:00" |}.

Definition healthy : Conditions := conditions Healthy Healthy Healthy Healthy.

Definition boom : Error := {| Js.message := "connection refused" |}.

Definition employee (n : string) : Cadastro_Operacional.row :=
  {| Cadastro_Operacional.Usuario_Operação := Some n |}.

Definition manifest (id status user cia : string) (disponivel iniciado : value)
  : SMO_Sistema.row :=
  {| SMO_Sistema.ID_Manifesto := Some id;
     SMO_Sistema.Status := Some status;
     SMO_Sistema.Usuario_Operacao := Some user;
     SMO_Sistema.Usuario_Operação := None;
     SMO_Sistema.Usuario := None;
     SMO_Sistema.CIA := Some cia;
     SMO_Sistema.Manifesto_Disponivel := disponivel;
     SMO_Sistema.Manifesto_Iniciado := iniciado |}.

Definition world (names : list string) (manifests : list SMO_Sistema.row) : World :=
  {| tbl_Cadastro_Operacional := map employee names;
     tbl_SMO_Sistema := manifests;
     tbl_registros_operacionais := [];
     calls := [] |}.

Definition state (a : App.ActionType) (nm id : string) (names : list string)
  (last : option string) : App.State :=
  {| App.action := a; App.name := nm; App.selectedManifestoId := id;
     App.namesList := names; App.idsList := []; App.manifestosForEmployee := [];
     App.loading := false; App.loadingMessage := "Processando...";
     App.updating := false;
     App.feedback := {| App.text := ""; App.type := App.type_empty |};
     App.lastSubmission := last |}.

End Fixture.

(* ================================================================== *)
(** * Sessions of the form, and variations of the store                 *)
(* ================================================================== *)

Module Session.

(** The form after a sequence of events. *)
Definition run (toLowerCase : string -> string) (es : list App.Event)
  (s : App.State) : App.State :=
  fold_left (fun st e => fst (App.step toLowerCase e st)) es s.

(** The fingerprint of the last callback of [es] that received
    [success: true], or [before] when there is none. *)
Definition armed_by (es : list App.Event) (before : option string)
  : option string :=
  fold_left
    (fun acc e =>
       match e with
       | App.SubmitSettled k result =>
           if success result then Some (App.submissionKey k) else acc
       | _ => acc
       end)
    es before.

(** The callback of [setTimeout(async () => {...}, 1500)] in [handleSubmit],
    with the [submitManifestoAction] that [App.tsx] imports from
    [./services/api]: the call is awaited, then the state is set from its
    result. Were the call to reject, nothing would be set. *)
Definition timeoutCallback (k : App.Closure) (c : Conditions) (w : World)
  (s : App.State) : (App.State * list App.Command) * World :=
  match Services_api.submitManifestoAction
          (App.label (App.captured_action k))
          (App.captured_selectedManifestoId k)
          (App.captured_name k) c w with
  | (Async.Returned result, w') => (App.submitSettled k result s, w')
  | (Async.Thrown _, w') => ((s, []), w')
  end.

End Session.

Module Vary.

(** The same row with other marker columns. *)
Definition with_markers (f g : SMO_Sistema.row -> value) (r : SMO_Sistema.row)
  : SMO_Sistema.row :=
  {| SMO_Sistema.ID_Manifesto := SMO_Sistema.ID_Manifesto r;
     SMO_Sistema.Status := SMO_Sistema.Status r;
     SMO_Sistema.Usuario_Operacao := SMO_Sistema.Usuario_Operacao r;
     SMO_Sistema.Usuario_Operação := SMO_Sistema.Usuario_Operação r;
     SMO_Sistema.Usuario := SMO_Sistema.Usuario r;
     SMO_Sistema.CIA := SMO_Sistema.CIA r;
     SMO_Sistema.Manifesto_Disponivel := f r;
     SMO_Sistema.Manifesto_Iniciado := g r |}.

Definition remark (f g : SMO_Sistema.row -> value) (w : World) : World :=
  {| tbl_Cadastro_Operacional := tbl_Cadastro_Operacional w;
     tbl_SMO_Sistema := map (with_markers f g) (tbl_SMO_Sistema w);
     tbl_registros_operacionais := tbl_registros_operacionais w;
     calls := calls w |}.

(** The same conditions, except for what the update does. *)
Definition with_update_health (h : Health) (c : Conditions) : Conditions :=
  {| select_health := select_health c;
     insert_health := insert_health c;
     update_health := h;
     fetch_health := fetch_health c;
     toISOString := toISOString c;
     toLocaleString_ptBR := toLocaleString_ptBR c |}.

Definition webhook_Manifesto_Operacional : string :=
  "https://projeto-teste-n8n.ly7t0m.easypanel.host/webhook/Manifesto-Operacional".

(** [r'] is [r] except perhaps for [Status] and [Usuario_Operacao], and is
    [r] itself when [r] is not the manifest [id]. *)
Definition same_manifest (id : string) (r r' : SMO_Sistema.row) : Prop :=
  SMO_Sistema.ID_Manifesto r' = SMO_Sistema.ID_Manifesto r /\
  SMO_Sistema.Usuario_Operação r' = SMO_Sistema.Usuario_Operação r /\
  SMO_Sistema.Usuario r' = SMO_Sistema.Usuario r /\
  SMO_Sistema.CIA r' = SMO_Sistema.CIA r /\
  SMO_Sistema.Manifesto_Disponivel r' = SMO_Sistema.Manifesto_Disponivel r /\
  SMO_Sistema.Manifesto_Iniciado r' = SMO_Sistema.Manifesto_Iniciado r /\
  (SMO_Sistema.ID_Manifesto r <> Some id -> r' = r).

End Vary.

(* ================================================================== *)
(** * Facts about the array helpers                                     *)
(* ================================================================== *)

Section StringOrder.

Lemma leb_spec (a b : string) :
  (a <=? b)%string = true <-> a = b \/ String_as_OT.lt a b.
Proof.
  unfold String.leb.
  destruct (a ?= b)%string eqn:E.
  - apply String_as_OT.cmp_eq in E. tauto.
  - apply String_as_OT.cmp_lt in E. tauto.
  - split; [discriminate|].
    intros [H | H].
    + apply String_as_OT.cmp_eq in H. unfold String_as_OT.cmp in H. congruence.
    + apply String_as_OT.cmp_lt in H. unfold String_as_OT.cmp in H. congruence.
Qed.

Lemma leb_refl (a : string) : (a <=? a)%string = true.
Proof. apply leb_spec. now left. Qed.

Lemma leb_trans (a b c : string) :
  (a <=? b)%string = true -> (b <=? c)%string = true -> (a <=? c)%string = true.
Proof.
  rewrite !leb_spec.
  intros [-> | Hab] [-> | Hbc]; auto.
  right. eapply String_as_OT.lt_trans; eassumption.
Qed.

Lemma leb_false_flip (a b : string) :
  (a <=? b)%string = false -> (b <=? a)%string = true.
Proof.
  intros H. destruct (String.leb_total a b) as [H' | H']; congruence.
Qed.

End StringOrder.

Section ArrayFacts.

Lemma value_eqb_eq (a b : value) : value_eqb a b = true <-> a = b.
Proof.
  unfold value_eqb. destruct (value_eq_dec a b); split; congruence.
Qed.

Lemma includes_In (x : value) (l : list value) :
  includes x l = true <-> In x l.
Proof.
  unfold includes. rewrite existsb_exists. split.
  - intros (y & Hy & E). apply value_eqb_eq in E. now subst.
  - intros H. exists x. split; [assumption | now apply value_eqb_eq].
Qed.

Lemma Set_add_all_spec (xs acc : list value) :
  NoDup acc ->
  NoDup (fold_left Set_add xs acc) /\
  (forall v, In v (fold_left Set_add xs acc) <-> In v acc \/ In v xs).
Proof.
  revert acc. induction xs as [| x xs IH]; intros acc Hacc; simpl.
  - split; [assumption | intros v; tauto].
  - assert (Hnd : NoDup (Set_add acc x)).
    { unfold Set_add. destruct (includes x acc) eqn:E; [assumption|].
      apply NoDup_app; [assumption | repeat constructor; intros [] |].
      intros a Ha [<- | []].
      apply includes_In in Ha. congruence. }
    destruct (IH _ Hnd) as [H1 H2]. split; [assumption|].
    intros v. rewrite H2. unfold Set_add.
    destruct (includes x acc) eqn:E.
    + apply includes_In in E. split; [tauto|].
      intros [H | [<- | H]]; auto.
    + rewrite in_app_iff. simpl. tauto.
Qed.

Lemma Array_from_Set_NoDup (xs : list value) : NoDup (Array_from_Set xs).
Proof. apply (Set_add_all_spec xs []). constructor. Qed.

Lemma Array_from_Set_In (xs : list value) (v : value) :
  In v (Array_from_Set xs) <-> In v xs.
Proof.
  unfold Array_from_Set.
  destruct (Set_add_all_spec xs [] (NoDup_nil _)) as [_ H].
  rewrite H. simpl. tauto.
Qed.

Lemma insert_Permutation (x : value) (l : list value) :
  Permutation (insert x l) (x :: l).
Proof.
  induction l as [| y r IH]; simpl; [reflexivity|].
  destruct (toString x <=? toString y)%string; [reflexivity|].
  rewrite IH. apply perm_swap.
Qed.

Lemma sort_Permutation (l : list value) : Permutation (sort l) l.
Proof.
  induction l as [| x l IH]; simpl; [reflexivity|].
  rewrite insert_Permutation. now constructor.
Qed.

Lemma insert_sorted (x : value) (l : list value) :
  StronglySorted Spec.js_le l -> StronglySorted Spec.js_le (insert x l).
Proof.
  induction 1 as [| y r Hr IH Hall]; simpl.
  - repeat constructor.
  - destruct (toString x <=? toString y)%string eqn:E.
    + constructor; [now constructor|].
      constructor; [exact E|].
      eapply Forall_impl; [|exact Hall].
      intros z Hz. unfold Spec.js_le in *. eapply leb_trans; eassumption.
    + constructor; [assumption|].
      rewrite (Forall_forall (Spec.js_le y)). intros z Hz.
      apply (Permutation_in _ (insert_Permutation x r)) in Hz.
      destruct Hz as [<- | Hz].
      * now apply leb_false_flip.
      * rewrite Forall_forall in Hall. now apply Hall.
Qed.

Lemma sort_sorted (l : list value) : StronglySorted Spec.js_le (sort l).
Proof.
  induction l as [| x l IH]; simpl; [constructor | now apply insert_sorted].
Qed.

Lemma sort_In (l : list value) (v : value) : In v (sort l) <-> In v l.
Proof.
  split; apply Permutation_in;
    [apply sort_Permutation | symmetry; apply sort_Permutation].
Qed.

Lemma sort_NoDup (l : list value) : NoDup l -> NoDup (sort l).
Proof.
  intros H. eapply Permutation_NoDup; [symmetry; apply sort_Permutation | exact H].
Qed.

Lemma Boolean_true (v : value) :
  Boolean v = true <-> exists s, v = Some s /\ s <> "".
Proof.
  destruct v as [s|]; simpl.
  - destruct (String.eqb_spec s ""); simpl; split.
    + discriminate.
    + intros (s' & [= <-] & H). contradiction.
    + intros _. now exists s.
    + reflexivity.
  - split; [discriminate | intros (s & H & _); discriminate].
Qed.

(** A list of truthy values is a list of texts. *)
Lemma truthy_texts (l : list value) :
  Forall (fun v => Boolean v = true) l -> l = map Some (map toString l).
Proof.
  induction 1 as [| v l Hv _ IH]; simpl; [reflexivity|].
  apply Boolean_true in Hv. destruct Hv as (s & -> & _).
  simpl. now rewrite <- IH.
Qed.

Lemma map_Some_NoDup (l : list string) : NoDup (map Some l) -> NoDup l.
Proof. apply NoDup_map_inv. Qed.

Lemma map_Some_sorted (l : list string) :
  StronglySorted Spec.js_le (map Some l) ->
  StronglySorted (fun a b => (a <=? b)%string = true) l.
Proof.
  induction l as [| a l IH]; simpl; intros H; [constructor|].
  inversion H as [| ? ? Hs Hall]; subst.
  constructor; [now apply IH|].
  rewrite Forall_map in Hall. exact Hall.
Qed.

(** What [sort(filter(Boolean, Array.from(new Set(column))))] is: the
    non-empty texts of the column, each once, in ascending order. *)
Lemma unique_sorted_texts (column : list value) :
  exists texts : list string,
    sort (filter Boolean (Array_from_Set column)) = map Some texts /\
    NoDup texts /\
    StronglySorted (fun a b => (a <=? b)%string = true) texts /\
    (forall s, In s texts <-> s <> "" /\ In (Some s) column).
Proof.
  set (r := sort (filter Boolean (Array_from_Set column))).
  assert (Hin : forall v, In v r <-> Boolean v = true /\ In v column).
  { intros v. unfold r. rewrite sort_In, filter_In, Array_from_Set_In. tauto. }
  assert (Htexts : r = map Some (map toString r)).
  { apply truthy_texts. apply Forall_forall. intros v Hv. now apply Hin. }
  exists (map toString r). split; [exact Htexts|].
  assert (Hnd : NoDup r).
  { unfold r. apply sort_NoDup, NoDup_filter, Array_from_Set_NoDup. }
  split; [apply map_Some_NoDup; now rewrite <- Htexts|].
  split; [apply map_Some_sorted; rewrite <- Htexts; apply sort_sorted|].
  intros s. split.
  - intros H. apply (in_map Some) in H. rewrite <- Htexts in H.
    apply Hin in H. destruct H as [Hb Hc]. split; [|assumption].
    apply Boolean_true in Hb. destruct Hb as (s' & [= <-] & Hne). assumption.
  - intros [Hne Hc].
    assert (In (Some s) r).
    { apply Hin. split; [|assumption]. apply Boolean_true. now exists s. }
    rewrite Htexts in H. apply in_map_iff in H.
    destruct H as (s' & [= ->] & H). assumption.
Qed.

End ArrayFacts.

(* ================================================================== *)
(** * The read operations                                               *)
(* ================================================================== *)

Section Reads.

Lemma filter_filter {A : Type} (f g : A -> bool) (l : list A) :
  filter f (filter g l) = filter (fun x => g x && f x) l.
Proof.
  induction l as [| x l IH]; simpl; [reflexivity|].
  destruct (g x); simpl; [destruct (f x)|]; now rewrite IH.
Qed.

Lemma filter_map_commute {A B : Type} (f : B -> bool) (g : A -> B) (l : list A) :
  filter f (map g l) = map g (filter (fun x => f (g x)) l).
Proof.
  induction l as [| x l IH]; simpl; [reflexivity|].
  destruct (f (g x)); simpl; now rewrite IH.
Qed.

(** The revisions of the access layer keep [fetchNames] as it is. *)
Lemma fetchNames_same_in_every_revision (status : option string)
  (c : Conditions) (w : World) :
  Part_001.fetchNames status c w = Services_api.fetchNames status c w.
Proof. reflexivity. Qed.

Lemma fetchCIAs_same_in_every_revision (c : Conditions) (w : World) :
  Part_001.fetchCIAs c w = Services_api.fetchCIAs c w.
Proof. reflexivity. Qed.

End Reads.



(** Empty and absent names are dropped. *)
Example fetchNames_drops_empty :
  Services_api.fetchNames None Fixture.healthy
    {| tbl_Cadastro_Operacional :=
         [ {| Cadastro_Operacional.Usuario_Operação := Some "Maria" |};
           {| Cadastro_Operacional.Usuario_Operação := None |};
           {| Cadastro_Operacional.Usuario_Operação := Some "" |};
           {| Cadastro_Operacional.Usuario_Operação := Some "Ana" |} ];
       tbl_SMO_Sistema := []; tbl_registros_operacionais := []; calls := [] |}
  = [Some "Ana"; Some "Maria"].
Proof. reflexivity. Qed.

(** C8, as stated, fails twice. The [fetchManifestosForEmployee] of
    [src/services/api.ts] filters on [Status] and ignores the markers: it
    drops an eligible manifest whose [Status] is "Manifesto Recebido" and
    lists one whose markers are not eligible. And the marker-column revision
    tests for NULL, not for emptiness: a manifest whose availability marker
    is the empty text is dropped, one whose started marker is the empty text
    is listed. *)
Lemma fetchManifestosForEmployee_not_as_worded :
  (Services_api.fetchManifestosForEmployee "Ana" Fixture.healthy
     (Fixture.world []
        [ Fixture.manifest "M1" "Manifesto Recebido" "Ana" "CIA X" None (Some "t1");
          Fixture.manifest "M2" "Manifesto Iniciado" "Ana" "CIA X" (Some "t0") None ])
   = [Some "M2"] /\
   map SMO_Sistema.ID_Manifesto
     (filter (Spec.eligible_as_worded "Ana")
        [ Fixture.manifest "M1" "Manifesto Recebido" "Ana" "CIA X" None (Some "t1");
          Fixture.manifest "M2" "Manifesto Iniciado" "Ana" "CIA X" (Some "t0") None ])
   = [Some "M1"]) /\
  (Part_001.fetchManifestosForEmployee "Ana" Fixture.healthy
     (Fixture.world []
        [ Fixture.manifest "F6" "Manifesto Iniciado" "Ana" "CIA X" (Some "") (Some "t1");
          Fixture.manifest "G7" "Manifesto Iniciado" "Ana" "CIA X" None (Some "") ])
   = [Some "G7"] /\
   map SMO_Sistema.ID_Manifesto
     (filter (Spec.eligible_as_worded "Ana")
        [ Fixture.manifest "F6" "Manifesto Iniciado" "Ana" "CIA X" (Some "") (Some "t1");
          Fixture.manifest "G7" "Manifesto Iniciado" "Ana" "CIA X" None (Some "") ])
   = [Some "F6"]) /\
  Services_api.fetchManifestosForEmployee "Ana" Fixture.healthy
    (Fixture.world []
       [ Fixture.manifest "M1" "Manifesto Recebido" "Ana" "CIA X" None (Some "t1");
         Fixture.manifest "M2" "Manifesto Iniciado" "Ana" "CIA X" (Some "t0") None ])
  <> map SMO_Sistema.ID_Manifesto
       (filter (Spec.eligible_as_worded "Ana")
          [ Fixture.manifest "M1" "Manifesto Recebido" "Ana" "CIA X" None (Some "t1");
            Fixture.manifest "M2" "Manifesto Iniciado" "Ana" "CIA X" (Some "t0") None ]) /\
  Part_001.fetchManifestosForEmployee "Ana" Fixture.healthy
    (Fixture.world []
       [ Fixture.manifest "F6" "Manifesto Iniciado" "Ana" "CIA X" (Some "") (Some "t1");
         Fixture.manifest "G7" "Manifesto Iniciado" "Ana" "CIA X" None (Some "") ])
  <> map SMO_Sistema.ID_Manifesto
       (filter (Spec.eligible_as_worded "Ana")
          [ Fixture.manifest "F6" "Manifesto Iniciado" "Ana" "CIA X" (Some "") (Some "t1");
            Fixture.manifest "G7" "Manifesto Iniciado" "Ana" "CIA X" None (Some "") ]).
Proof.
  repeat split; discriminate.
Qed.

(** C8, amended. In [src/unnamed/part_001], [fetchManifestosForEmployee]
    returns the ids of the rows whose acting employee is the given name,
    whose [Manifesto_Disponivel] is NULL and whose [Manifesto_Iniciado] is
    not NULL (an empty text counts as a value), in table order and with
    repetitions, the empty list on any error, and the [Status] column plays
    no part in it; on a row whose markers are never the empty text this is
    the condition as the specification words it. In [src/services/api.ts]
    (and [src/unnamed/part_000], which has the same function) it returns, in
    the same raw way, the ids of the rows whose acting employee is the given
    name and whose [Status] is "Manifesto Iniciado", and the two marker
    columns play no part in it. *)
Theorem fetchManifestosForEmployee_by_revision
  (name : string) (c : Conditions) (w : World) :
  (Part_001.fetchManifestosForEmployee name c w =
     match select_health c with
     | Healthy =>
         map SMO_Sistema.ID_Manifesto
             (filter (Spec.listed_by_markers name) (tbl_SMO_Sistema w))
     | ReportsError _ | NoData | Throws _ => []
     end /\
   (forall f : SMO_Sistema.row -> value,
       Part_001.fetchManifestosForEmployee name c (Spec.relabel_Status f w) =
       Part_001.fetchManifestosForEmployee name c w)) /\
  (forall r,
      SMO_Sistema.Manifesto_Disponivel r <> Some "" ->
      SMO_Sistema.Manifesto_Iniciado r <> Some "" ->
      Spec.listed_by_markers name r = Spec.eligible_as_worded name r) /\
  (Services_api.fetchManifestosForEmployee name c w =
     match select_health c with
     | Healthy =>
         map SMO_Sistema.ID_Manifesto
             (filter (Spec.listed_by_Status name) (tbl_SMO_Sistema w))
     | ReportsError _ | NoData | Throws _ => []
     end /\
   (forall f g : SMO_Sistema.row -> value,
       Services_api.fetchManifestosForEmployee name c (Vary.remark f g w) =
       Services_api.fetchManifestosForEmployee name c w)).
Proof.
  assert (Hsel : forall rows,
             not_is_null SMO_Sistema.Manifesto_Iniciado
               (is_null SMO_Sistema.Manifesto_Disponivel
                  (eq SMO_Sistema.Usuario_Operacao name rows))
             = filter (Spec.listed_by_markers name) rows).
  { intros rows. unfold not_is_null, is_null, eq.
    rewrite !filter_filter. apply filter_ext. intros r.
    unfold Spec.listed_by_markers. now rewrite andb_assoc. }
  assert (Hplain : forall rows,
             eq SMO_Sistema.Status "Manifesto Iniciado"
               (eq SMO_Sistema.Usuario_Operacao name rows)
             = filter (Spec.listed_by_Status name) rows).
  { intros rows. unfold eq. now rewrite filter_filter. }
  split; [split | split; [|split]].
  - unfold Part_001.fetchManifestosForEmployee. rewrite Hsel.
    destruct (select_health c); reflexivity.
  - intros f. unfold Part_001.fetchManifestosForEmployee. rewrite !Hsel.
    destruct (select_health c); simpl; try reflexivity.
    rewrite filter_map_commute, map_map. reflexivity.
  - intros r Hd Hi. unfold Spec.listed_by_markers, Spec.eligible_as_worded.
    destruct (SMO_Sistema.Manifesto_Disponivel r) as [d|],
             (SMO_Sistema.Manifesto_Iniciado r) as [i|]; simpl;
      try reflexivity.
    + destruct (String.eqb_spec d ""); [congruence|].
      destruct (String.eqb_spec i ""); [congruence | reflexivity].
    + destruct (String.eqb_spec d ""); [congruence | reflexivity].
    + destruct (String.eqb_spec i ""); [congruence | reflexivity].
  - unfold Services_api.fetchManifestosForEmployee. rewrite Hplain.
    destruct (select_health c); reflexivity.
  - intros f g. unfold Services_api.fetchManifestosForEmployee. rewrite !Hplain.
    destruct (select_health c); simpl; try reflexivity.
    rewrite filter_map_commute, map_map. reflexivity.
Qed.

Lemma fetchManifestosForEmployee_by_revision_witness :
  Spec.listed_by_markers "Ana"
    (Fixture.manifest "M1" "Manifesto Recebido" "Ana" "CIA X" None (Some "t1"))
  = Spec.eligible_as_worded "Ana"
      (Fixture.manifest "M1" "Manifesto Recebido" "Ana" "CIA X" None (Some "t1")).
Proof.
  refine (proj1 (proj2
            (fetchManifestosForEmployee_by_revision "Ana" Fixture.healthy
               (Fixture.world [] [])))
            (Fixture.manifest "M1" "Manifesto Recebido" "Ana" "CIA X" None (Some "t1"))
            _ _); discriminate.
Defined.

(** The list is raw: table order, repetitions kept, whatever the [Status]. *)
Example fetchManifestosForEmployee_raw :
  Part_001.fetchManifestosForEmployee "Ana" Fixture.healthy
    (Fixture.world []
       [ Fixture.manifest "B2" "Manifesto Recebido" "Ana" "CIA X" None (Some "t1");
         Fixture.manifest "A1" "Manifesto Iniciado" "Ana" "CIA X" None (Some "t2");
         Fixture.manifest "C3" "Manifesto Iniciado" "Ana" "CIA X" (Some "t0") (Some "t3");
         Fixture.manifest "D4" "Manifesto Iniciado" "Ana" "CIA X" None None;
         Fixture.manifest "E5" "Manifesto Iniciado" "Ben" "CIA X" None (Some "t4");
         Fixture.manifest "B2" "Manifesto Finalizado" "Ana" "CIA X" None (Some "t5") ])
  = [Some "B2"; Some "A1"; Some "B2"].
Proof. reflexivity. Qed.

(** The earlier revisions ([src/services/api.ts], [src/unnamed/part_000])
    have the plain variant, which the specification contrasts with the one
    above: acting employee and [Status] equal to "Manifesto Iniciado", the
    markers playing no part. *)
Lemma plain_fetchManifestosForEmployee_by_Status
  (name : string) (c : Conditions) (w : World) :
  Services_api.fetchManifestosForEmployee name c w =
    match select_health c with
    | Healthy =>
        map SMO_Sistema.ID_Manifesto
            (filter (fun r =>
                       value_eqb (SMO_Sistema.Usuario_Operacao r) (Some name)
                       && value_eqb (SMO_Sistema.Status r) (Some "Manifesto Iniciado"))
                    (tbl_SMO_Sistema w))
    | ReportsError _ | NoData | Throws _ => []
    end.
Proof.
  unfold Services_api.fetchManifestosForEmployee, eq.
  rewrite filter_filter. destruct (select_health c); reflexivity.
Qed.

(** On a healthy store [fetchCIAs] returns the company codes of the table,
    each once, in ascending order. *)
Lemma fetchCIAs_unique_sorted (c : Conditions) (w : World) :
  select_health c = Healthy ->
  NoDup (Services_api.fetchCIAs c w) /\
  StronglySorted Spec.js_le (Services_api.fetchCIAs c w) /\
  (forall v, In v (Services_api.fetchCIAs c w) <->
             v <> None /\ In v (map SMO_Sistema.CIA (tbl_SMO_Sistema w))).
Proof.
  intros Hh. unfold Services_api.fetchCIAs. rewrite Hh. simpl.
  split; [apply sort_NoDup, Array_from_Set_NoDup|].
  split; [apply sort_sorted|].
  intros v. rewrite sort_In, Array_from_Set_In. unfold neq_null.
  rewrite !in_map_iff. split.
  - intros (r & <- & Hr). apply filter_In in Hr. destruct Hr as [Hr Hn].
    split; [destruct (SMO_Sistema.CIA r); congruence | now exists r].
  - intros (Hn & r & <- & Hr). exists r. split; [reflexivity|].
    apply filter_In. split; [assumption|].
    destruct (SMO_Sistema.CIA r); congruence.
Qed.

(** It reads and changes nothing: the same table under the same health gives
    the same list, call after call. *)
Lemma fetchCIAs_idempotent (c1 c2 : Conditions) (w1 w2 : World) :
  select_health c1 = select_health c2 ->
  tbl_SMO_Sistema w1 = tbl_SMO_Sistema w2 ->
  Services_api.fetchCIAs c1 w1 = Services_api.fetchCIAs c2 w2.
Proof.
  intros Hh Ht. unfold Services_api.fetchCIAs. now rewrite Hh, Ht.
Qed.

(** A reported query error gives the fallback list. *)
Lemma fetchCIAs_reported_error_falls_back (e : Error) (c : Conditions) (w : World) :
  select_health c = ReportsError e ->
  Services_api.fetchCIAs c w = Spec.fallback_CIAs.
Proof.
  intros Hh. unfold Services_api.fetchCIAs. now rewrite Hh.
Qed.

(** C9. Where the claim fails: when the query throws, [fetchCIAs] returns the
    empty list of its [catch] block, not the fallback list its reported-error
    path returns. *)
Theorem fetchCIAs_thrown_error_returns_empty (e : Error) (c : Conditions) (w : World) :
  select_health c = Throws e ->
  Services_api.fetchCIAs c w = [] /\
  Part_001.fetchCIAs c w = [] /\
  Services_api.fetchCIAs c w <> Spec.fallback_CIAs.
Proof.
  intros Hh. unfold Part_001.fetchCIAs, Services_api.fetchCIAs.
  rewrite Hh. simpl. repeat split. discriminate.
Qed.

Lemma fetchCIAs_thrown_error_returns_empty_witness :
  Services_api.fetchCIAs
    (Fixture.conditions (Throws Fixture.boom) Healthy Healthy Healthy)
    (Fixture.world [] [Fixture.manifest "X1" "Manifesto Recebido" "Ana" "CIA Z" None None])
  = [].
Proof.
  exact (proj1 (fetchCIAs_thrown_error_returns_empty Fixture.boom
                  (Fixture.conditions (Throws Fixture.boom) Healthy Healthy Healthy)
                  (Fixture.world [] [Fixture.manifest "X1" "Manifesto Recebido"
                                       "Ana" "CIA Z" None None])
                  eq_refl)).
Defined.

(* ================================================================== *)
(** * The submit operation                                              *)
(* ================================================================== *)

Ltac unfold_submit :=
  unfold Services_api.submitManifestoAction, Part_000.submitManifestoAction,
    Part_001.submitManifestoAction, Async.try_catch, Async.bind, Async.asks,
    Async.insert_registros_operacionais, Async.update_SMO_Sistema,
    Async.fetch_POST, Async.console_error, Async.ret.

Ltac step_submit :=
  match goal with
  | |- context [String.eqb ?a ?s] => destruct (String.eqb a s) eqn:?
  | |- context [insert_health ?c] => destruct (insert_health c) eqn:?
  | |- context [update_health ?c] => destruct (update_health c) eqn:?
  | |- context [fetch_health ?c] => destruct (fetch_health c) eqn:?
  end; simpl.

Ltac run_submit := unfold_submit; simpl; repeat step_submit.

Section Submit.

Variables (action id name : string) (c : Conditions) (w : World).

(** When the insert throws, every revision answers with the failure message,
    having issued the insert and nothing else. *)
Lemma thrown_insert_is_reported (e : Error) :
  insert_health c = Throws e ->
  let failure := {| success := false;
                    message := ("Erro ao processar: " ++ Js.message e)%string |} in
  Services_api.submitManifestoAction action id name c w
    = (Async.Returned failure, Async.issue (Insert (Spec.log_row action id name c)) w) /\
  Part_000.submitManifestoAction action id name c w
    = (Async.Returned failure, Async.issue (Insert (Spec.log_row action id name c)) w) /\
  Part_001.submitManifestoAction action id name c w
    = (Async.Returned failure, Async.issue (Insert (Spec.log_row action id name c)) w).
Proof.
  intros Hi. unfold_submit. simpl. rewrite Hi. simpl. auto.
Qed.

(** No revision ever lets an exception escape. *)
Lemma submit_never_throws :
  (exists r, fst (Services_api.submitManifestoAction action id name c w) = Async.Returned r) /\
  (exists r, fst (Part_000.submitManifestoAction action id name c w) = Async.Returned r) /\
  (exists r, fst (Part_001.submitManifestoAction action id name c w) = Async.Returned r).
Proof.
  repeat split; run_submit; eauto.
Qed.

End Submit.

(** C1. Where the claim fails: when the insert resolves with an error, every
    revision skips the status update but still answers [success: true] with
    the message of the action, and the revisions that have a webhook still
    post to it. *)
Theorem reported_insert_error_still_succeeds
  (action id name : string) (e : Error) (c : Conditions) (w : World) :
  insert_health c = ReportsError e ->
  (exists m,
      fst (Services_api.submitManifestoAction action id name c w)
      = Async.Returned {| success := true; message := m |}) /\
  (exists m,
      fst (Part_000.submitManifestoAction action id name c w)
      = Async.Returned {| success := true; message := m |}) /\
  (exists m,
      fst (Part_001.submitManifestoAction action id name c w)
      = Async.Returned {| success := true; message := m |}) /\
  snd (Services_api.submitManifestoAction action id name c w)
    = Async.issue (Insert (Spec.log_row action id name c)) w /\
  filter Spec.is_Update
    (calls (snd (Part_000.submitManifestoAction action id name c w)))
    = filter Spec.is_Update (calls w) /\
  filter Spec.is_Update
    (calls (snd (Part_001.submitManifestoAction action id name c w)))
    = filter Spec.is_Update (calls w) /\
  (action = "Iniciar Manifesto" ->
   In (Post Spec.webhook_Iniciar_Manifesto
         [("id_manifesto", id); ("nome", name);
          ("Manifesto_Iniciado", toLocaleString_ptBR c)])
      (calls (snd (Part_000.submitManifestoAction action id name c w))) /\
   In (Post Spec.webhook_Iniciar_Manifesto
         [("id_manifesto", id); ("nome", name);
          ("Manifesto_Iniciado", toLocaleString_ptBR c)])
      (calls (snd (Part_001.submitManifestoAction action id name c w)))).
Proof.
  intros Hi.
  repeat match goal with |- _ /\ _ => split end.
  - unfold_submit; simpl; rewrite Hi; simpl; repeat step_submit; eauto.
  - unfold_submit; simpl; rewrite Hi; simpl; repeat step_submit; eauto.
  - unfold_submit; simpl; rewrite Hi; simpl; repeat step_submit; eauto.
  - unfold_submit; simpl; rewrite Hi; simpl; repeat step_submit; reflexivity.
  - unfold_submit; simpl; rewrite Hi; simpl; repeat step_submit;
      rewrite ?filter_app; simpl; rewrite ?app_nil_r; reflexivity.
  - unfold_submit; simpl; rewrite Hi; simpl; repeat step_submit;
      rewrite ?filter_app; simpl; rewrite ?app_nil_r; reflexivity.
  - intros ->. unfold Spec.webhook_Iniciar_Manifesto.
    split; unfold_submit; simpl; rewrite Hi; simpl; repeat step_submit;
      rewrite ?in_app_iff; simpl; tauto.
Qed.

Lemma reported_insert_error_still_succeeds_witness :
  Part_001.submitManifestoAction "Iniciar Manifesto" "X1" "Joao"
    (Fixture.conditions Healthy (ReportsError Fixture.boom) Healthy Healthy)
    (Fixture.world [] [])
  = (Async.Returned {| success := true; message := "Manifesto iniciado com sucesso!" |},
     {| tbl_Cadastro_Operacional := [];
        tbl_SMO_Sistema := [];
        tbl_registros_operacionais := [];
        calls :=
          [ Insert {| registros_operacionais.manifesto_id := "X1";
                      registros_operacionais.acao := "Iniciar Manifesto";
                      registros_operacionais.nome := "Joao";
                      registros_operacionais.created_at := "2025-01-15T12:00:00.000Z" |};
            Post Spec.webhook_Iniciar_Manifesto
              [("id_manifesto", "X1"); ("nome", "Joao");
               ("Manifesto_Iniciado", "15/01/2025, 09:00:00")] ] |}) /\
  exists m,
    fst (Part_001.submitManifestoAction "Iniciar Manifesto" "X1" "Joao"
           (Fixture.conditions Healthy (ReportsError Fixture.boom) Healthy Healthy)
           (Fixture.world [] []))
    = Async.Returned {| success := true; message := m |}.
Proof.
  split; [reflexivity|].
  exact (proj1 (proj2 (proj2
           (reported_insert_error_still_succeeds "Iniciar Manifesto" "X1" "Joao"
              Fixture.boom
              (Fixture.conditions Healthy (ReportsError Fixture.boom) Healthy Healthy)
              (Fixture.world [] []) eq_refl)))).
Defined.

(** C2. When the insert has succeeded, the next request of every revision is
    the update of the row whose [ID_Manifesto] is the given id, with [Status]
    "Manifesto Iniciado" for the start label of that revision and "Manifesto
    Finalizado" for any other label, and with the given name as acting
    employee; when the update goes through, exactly the rows with that id
    carry the new status and name. *)
Theorem insert_ok_then_status_update
  (action id name : string) (c : Conditions) (w : World) :
  Spec.succeeded (insert_health c) = true ->
  let newStatus (start : string) :=
    if (action =? start)%string then "Manifesto Iniciado" else "Manifesto Finalizado" in
  let updated (status : string) :=
    map (fun r => if value_eqb (SMO_Sistema.ID_Manifesto r) (Some id)
                  then Spec.with_Usuario_Operacao (Some name)
                         (Spec.with_Status (fun _ => Some status) r)
                  else r)
        (tbl_SMO_Sistema w) in
  ((exists rest,
       calls (snd (Services_api.submitManifestoAction action id name c w))
       = calls w ++ Insert (Spec.log_row action id name c)
                 :: Update (newStatus "Iniciar Puxe") name id :: rest) /\
   (exists rest,
       calls (snd (Part_000.submitManifestoAction action id name c w))
       = calls w ++ Insert (Spec.log_row action id name c)
                 :: Update (newStatus "Iniciar Manifesto") name id :: rest) /\
   (exists rest,
       calls (snd (Part_001.submitManifestoAction action id name c w))
       = calls w ++ Insert (Spec.log_row action id name c)
                 :: Update (newStatus "Iniciar Manifesto") name id :: rest)) /\
  (Spec.succeeded (update_health c) = true ->
   tbl_SMO_Sistema (snd (Services_api.submitManifestoAction action id name c w))
     = updated (newStatus "Iniciar Puxe") /\
   tbl_SMO_Sistema (snd (Part_000.submitManifestoAction action id name c w))
     = updated (newStatus "Iniciar Manifesto") /\
   tbl_SMO_Sistema (snd (Part_001.submitManifestoAction action id name c w))
     = updated (newStatus "Iniciar Manifesto")).
Proof.
  intros Hi newStatus updated. subst newStatus updated. simpl.
  split; [repeat split | intros Hu; repeat split].
  all: unfold_submit; simpl.
  all: destruct (insert_health c); try discriminate Hi; simpl.
  all: try (destruct (update_health c); try discriminate Hu; simpl).
  all: repeat step_submit.
  all: rewrite <- ?app_assoc; simpl.
  all: try (eexists; reflexivity).
  all: reflexivity.
Qed.

Lemma insert_ok_then_status_update_witness :
  tbl_SMO_Sistema
    (snd (Services_api.submitManifestoAction "Iniciar Puxe" "X1" "Joao"
            Fixture.healthy
            (Fixture.world []
               [ Fixture.manifest "X1" "Manifesto Recebido" "" "CIA A" None None;
                 Fixture.manifest "Y2" "Manifesto Recebido" "" "CIA A" None None ])))
  = [ Fixture.manifest "X1" "Manifesto Iniciado" "Joao" "CIA A" None None;
      Fixture.manifest "Y2" "Manifesto Recebido" "" "CIA A" None None ] /\
  exists rest,
    calls (snd (Part_001.submitManifestoAction "Finalizar Manifesto" "X1" "Joao"
                  Fixture.healthy (Fixture.world [] [])))
    = [] ++ Insert (Spec.log_row "Finalizar Manifesto" "X1" "Joao" Fixture.healthy)
            :: Update "Manifesto Finalizado" "Joao" "X1" :: rest.
Proof.
  split; [reflexivity|].
  exact (proj2 (proj2 (proj1
           (insert_ok_then_status_update "Finalizar Manifesto" "X1" "Joao"
              Fixture.healthy (Fixture.world [] []) eq_refl)))).
Defined.

(** C3, as stated, fails twice: the revision of [src/services/api.ts] has no
    webhook at all, and in the revisions that have one a start submission
    whose insert throws ends in the [catch] block before reaching it. *)
Lemma start_submission_without_post :
  (forall url body,
      ~ In (Post url body)
           (calls (snd (Services_api.submitManifestoAction "Iniciar Puxe" "X1" "Joao"
                          Fixture.healthy (Fixture.world [] []))))) /\
  (forall url body,
      ~ In (Post url body)
           (calls (snd (Part_000.submitManifestoAction "Iniciar Manifesto" "X1" "Joao"
                          (Fixture.conditions Healthy (Throws Fixture.boom)
                             Healthy Healthy)
                          (Fixture.world [] []))))).
Proof.
  split; intros url body; simpl; intros H;
    repeat (destruct H as [H | H]; [discriminate H|]); exact H.
Qed.

(** C3, amended. In the revisions with a webhook, a start submission in which
    neither the insert nor the update throws posts once, to the
    Iniciar-Manifesto URL, the manifest id, the name and the pt-BR timestamp,
    and a rejected post is logged to the console; the revision of
    [src/services/api.ts] never posts; and in every revision what is returned
    does not depend on what the webhook does. *)
Theorem start_webhook_posted_and_failure_swallowed
  (id name : string) (c : Conditions) (w : World) :
  (Spec.threw (insert_health c) = false ->
   Spec.threw (update_health c) = false ->
   let post :=
     Post Spec.webhook_Iniciar_Manifesto
       [("id_manifesto", id); ("nome", name);
        ("Manifesto_Iniciado", toLocaleString_ptBR c)] in
   filter Spec.is_Post
     (calls (snd (Part_000.submitManifestoAction "Iniciar Manifesto" id name c w)))
     = filter Spec.is_Post (calls w) ++ [post] /\
   filter Spec.is_Post
     (calls (snd (Part_001.submitManifestoAction "Iniciar Manifesto" id name c w)))
     = filter Spec.is_Post (calls w) ++ [post] /\
   (forall e, fetch_health c = Throws e ->
      In (ConsoleError "Webhook error:" e)
         (calls (snd (Part_000.submitManifestoAction "Iniciar Manifesto" id name c w))) /\
      In (ConsoleError "Webhook error:" e)
         (calls (snd (Part_001.submitManifestoAction "Iniciar Manifesto" id name c w))))) /\
  (forall action,
      filter Spec.is_Post
        (calls (snd (Services_api.submitManifestoAction action id name c w)))
      = filter Spec.is_Post (calls w)) /\
  (forall action h,
      fst (Services_api.submitManifestoAction action id name (Spec.with_fetch_health h c) w)
      = fst (Services_api.submitManifestoAction action id name c w) /\
      fst (Part_000.submitManifestoAction action id name (Spec.with_fetch_health h c) w)
      = fst (Part_000.submitManifestoAction action id name c w) /\
      fst (Part_001.submitManifestoAction action id name (Spec.with_fetch_health h c) w)
      = fst (Part_001.submitManifestoAction action id name c w)).
Proof.
  split; [|split].
  - intros Hi Hu post. subst post. unfold Spec.webhook_Iniciar_Manifesto.
    split; [|split; [|intros e He; split]].
    all: unfold_submit; simpl.
    all: destruct (insert_health c); try discriminate Hi; simpl.
    all: try (destruct (update_health c); try discriminate Hu; simpl).
    all: try rewrite He; simpl.
    all: repeat step_submit.
    all: rewrite ?filter_app; simpl; rewrite ?app_nil_r, ?in_app_iff; simpl.
    all: try reflexivity; try tauto.
  - intros action. run_submit; rewrite ?filter_app; simpl;
      rewrite ?app_nil_r; reflexivity.
  - intros action h. repeat split.
    all: unfold_submit; simpl.
    all: destruct (insert_health c); simpl.
    all: try (destruct (update_health c); simpl).
    all: repeat step_submit.
    all: try reflexivity.
    all: destruct h, (fetch_health c); simpl; reflexivity.
Qed.

Lemma start_webhook_posted_and_failure_swallowed_witness :
  Part_000.submitManifestoAction "Iniciar Manifesto" "X1" "Joao"
    (Fixture.conditions Healthy Healthy Healthy (Throws Fixture.boom))
    (Fixture.world [] [])
  = (Async.Returned {| success := true; message := "Manifesto iniciado com sucesso!" |},
     {| tbl_Cadastro_Operacional := [];
        tbl_SMO_Sistema := [];
        tbl_registros_operacionais :=
          [Spec.log_row "Iniciar Manifesto" "X1" "Joao" Fixture.healthy];
        calls :=
          [ Insert (Spec.log_row "Iniciar Manifesto" "X1" "Joao" Fixture.healthy);
            Update "Manifesto Iniciado" "Joao" "X1";
            Post Spec.webhook_Iniciar_Manifesto
              [("id_manifesto", "X1"); ("nome", "Joao");
               ("Manifesto_Iniciado", "15/01/2025, 09:00:00")];
            ConsoleError "Webhook error:" Fixture.boom ] |}) /\
  filter Spec.is_Post
    (calls (snd (Part_001.submitManifestoAction "Iniciar Manifesto" "X1" "Joao"
                   (Fixture.conditions Healthy Healthy Healthy (Throws Fixture.boom))
                   (Fixture.world [] []))))
  = filter Spec.is_Post (calls (Fixture.world [] []))
    ++ [Post Spec.webhook_Iniciar_Manifesto
          [("id_manifesto", "X1"); ("nome", "Joao");
           ("Manifesto_Iniciado", "15/01/2025, 09:00:00")]].
Proof.
  split; [reflexivity|].
  exact (proj1 (proj2
           (proj1 (start_webhook_posted_and_failure_swallowed "X1" "Joao"
                     (Fixture.conditions Healthy Healthy Healthy (Throws Fixture.boom))
                     (Fixture.world [] []))
                  eq_refl eq_refl))).
Defined.

(** C4, as stated, fails on [src/services/api.ts]: a successful start there
    is answered "Puxe registrado com sucesso!", a successful finish
    "Obrigado, puxe concluído!", under either vocabulary of labels. *)
Lemma Puxe_revision_answers_differently :
  (exists r,
      fst (Services_api.submitManifestoAction "Iniciar Puxe" "X1" "Joao"
             Fixture.healthy (Fixture.world [] [])) = Async.Returned r /\
      success r = true /\
      message r = "Puxe registrado com sucesso!" /\
      message r <> "Manifesto iniciado com sucesso!") /\
  (exists r,
      fst (Services_api.submitManifestoAction "Finalizar Puxe" "X1" "Joao"
             Fixture.healthy (Fixture.world [] [])) = Async.Returned r /\
      success r = true /\
      message r = "Obrigado, puxe concluído!" /\
      message r <> "Manifesto finalizado com sucesso!") /\
  (exists r,
      fst (Services_api.submitManifestoAction "Iniciar Manifesto" "X1" "Joao"
             Fixture.healthy (Fixture.world [] [])) = Async.Returned r /\
      success r = true /\
      message r <> "Manifesto iniciado com sucesso!").
Proof.
  repeat split; eexists; repeat split; simpl; discriminate.
Qed.

(** C4, amended. Whenever a revision answers with success, the message is
    fixed by the action label alone: in the two later revisions "Manifesto
    iniciado com sucesso!" for "Iniciar Manifesto", "Manifesto finalizado com
    sucesso!" for "Finalizar Manifesto"; in [src/services/api.ts] "Puxe
    registrado com sucesso!" for "Iniciar Puxe", "Obrigado, puxe concluído!"
    for "Finalizar Puxe"; and "Registro salvo com sucesso!" for any other
    label in all three. *)
Theorem success_message_by_label
  (action id name : string) (c : Conditions) (w : World) (r : ActionResult) :
  success r = true ->
  (fst (Part_000.submitManifestoAction action id name c w) = Async.Returned r \/
   fst (Part_001.submitManifestoAction action id name c w) = Async.Returned r ->
   message r =
     if (action =? "Iniciar Manifesto")%string then "Manifesto iniciado com sucesso!"
     else if (action =? "Finalizar Manifesto")%string
          then "Manifesto finalizado com sucesso!"
          else "Registro salvo com sucesso!") /\
  (fst (Services_api.submitManifestoAction action id name c w) = Async.Returned r ->
   message r =
     if (action =? "Iniciar Puxe")%string then "Puxe registrado com sucesso!"
     else if (action =? "Finalizar Puxe")%string then "Obrigado, puxe concluído!"
          else "Registro salvo com sucesso!").
Proof.
  intros Hs. split; [intros [H | H] | intros H]; revert H.
  all: unfold_submit; simpl.
  all: destruct (insert_health c); simpl.
  all: try (destruct (update_health c); simpl).
  all: repeat step_submit.
  all: intros [= <-]; simpl in *; try reflexivity; discriminate Hs.
Qed.

Lemma success_message_by_label_witness :
  message {| success := true; message := "Manifesto finalizado com sucesso!" |}
  = "Manifesto finalizado com sucesso!" /\
  fst (Part_001.submitManifestoAction "Finalizar Manifesto" "X1" "Joao"
         Fixture.healthy (Fixture.world [] []))
  = Async.Returned {| success := true; message := "Manifesto finalizado com sucesso!" |}.
Proof.
  split; [|reflexivity].
  exact (proj1 (success_message_by_label "Finalizar Manifesto" "X1" "Joao"
                  Fixture.healthy (Fixture.world [] [])
                  {| success := true; message := "Manifesto finalizado com sucesso!" |}
                  eq_refl)
               (or_intror eq_refl)).
Defined.

(* ================================================================== *)
(** * The root component                                                *)
(* ================================================================== *)

Section Strings.

Lemma append_cancel_l (p a b : string) :
  (p ++ a)%string = (p ++ b)%string -> a = b.
Proof.
  induction p as [| ch p IH]; simpl; intros H; [exact H|].
  injection H as H. now apply IH.
Qed.

Lemma length_append (a b : string) :
  String.length (a ++ b) = String.length a + String.length b.
Proof.
  induction a as [| ch a IH]; simpl; [reflexivity | now rewrite IH].
Qed.

Lemma append_cancel_r (a b s : string) :
  (a ++ s)%string = (b ++ s)%string -> a = b.
Proof.
  revert b. induction a as [| ch a IH]; intros [| ch' b] H; simpl in H.
  - reflexivity.
  - apply (f_equal String.length) in H. simpl in H.
    rewrite length_append in H. lia.
  - apply (f_equal String.length) in H. simpl in H.
    rewrite length_append in H. lia.
  - injection H as -> H. f_equal. now apply IH.
Qed.

Lemma label_injective (a b : App.ActionType) : App.label a = App.label b -> a = b.
Proof. destruct a, b; simpl; intros H; try reflexivity; discriminate H. Qed.

Lemma ActionType_eqb_eq (a b : App.ActionType) :
  App.ActionType_eqb a b = true <-> a = b.
Proof. destruct a, b; simpl; split; intros H; try reflexivity; discriminate H. Qed.

(** The fingerprint separates any two triples that differ in one field. *)
Lemma submissionKey_action (a a' : App.ActionType) (id nm : string) :
  App.make_submissionKey a id nm = App.make_submissionKey a' id nm -> a = a'.
Proof.
  unfold App.make_submissionKey. intros H.
  apply append_cancel_r in H. now apply label_injective.
Qed.

Lemma submissionKey_id (a : App.ActionType) (id id' nm : string) :
  App.make_submissionKey a id nm = App.make_submissionKey a id' nm -> id = id'.
Proof.
  unfold App.make_submissionKey. intros H.
  apply append_cancel_l in H. apply append_cancel_l in H.
  now apply append_cancel_r in H.
Qed.

Lemma submissionKey_name (a : App.ActionType) (id nm nm' : string) :
  App.make_submissionKey a id nm = App.make_submissionKey a id nm' -> nm = nm'.
Proof.
  unfold App.make_submissionKey. intros H.
  now repeat apply append_cancel_l in H.
Qed.

End Strings.

Section Submission.

Variable toLowerCase : string -> string.

Lemma lastSubmission_is_true (key : string) (s : App.State) :
  App.lastSubmission_is key s = true <-> App.lastSubmission s = Some key.
Proof.
  unfold App.lastSubmission_is. destruct (App.lastSubmission s) as [k|].
  - rewrite String.eqb_eq. split; congruence.
  - split; discriminate.
Qed.

(** A submission that fails a check starts nothing. *)
Lemma handleSubmit_invalid (s : App.State) :
  Spec.passes_validation toLowerCase s = false ->
  snd (App.handleSubmit toLowerCase s) = [].
Proof.
  unfold Spec.passes_validation, App.handleSubmit.
  destruct (App.action s); simpl;
    destruct (App.name s =? "")%string, (App.selectedManifestoId s =? "")%string;
    simpl; try reflexivity; try discriminate.
  destruct (App.namesList s) as [| n l]; simpl; [discriminate|].
  intros ->. reflexivity.
Qed.

(** A submission that passes the checks meets the duplicate guard, and only
    the guard. *)
Lemma handleSubmit_valid (s : App.State) :
  Spec.passes_validation toLowerCase s = true ->
  App.handleSubmit toLowerCase s =
    if App.lastSubmission_is (Spec.fingerprint s) s
    then Spec.rejected "Este registro já foi enviado recentemente!" s
    else Spec.proceeds s.
Proof.
  unfold Spec.passes_validation, App.handleSubmit, Spec.rejected,
    Spec.proceeds, Spec.fingerprint.
  destruct (App.action s); simpl;
    destruct (App.name s =? "")%string, (App.selectedManifestoId s =? "")%string;
    simpl; try discriminate.
  - destruct (App.namesList s) as [| n l]; simpl.
    + intros _. destruct (App.lastSubmission_is _ s); reflexivity.
    + intros ->. simpl. destruct (App.lastSubmission_is _ s); reflexivity.
  - intros _. destruct (App.lastSubmission_is _ s); reflexivity.
Qed.

End Submission.

Section Validation.

Variable toLowerCase : string -> string.

Lemma existsb_lower_false (nm : string) (l : list string) :
  (forall n, In n l -> toLowerCase n <> toLowerCase nm) ->
  existsb (fun n => (toLowerCase n =? toLowerCase nm)%string) l = false.
Proof.
  intros H. apply not_true_is_false. intros E.
  apply existsb_exists in E. destruct E as (n & Hn & E).
  apply String.eqb_eq in E. exact (H n Hn E).
Qed.

Lemma existsb_lower_true (nm : string) (l : list string) :
  (exists n, In n l /\ toLowerCase n = toLowerCase nm) ->
  existsb (fun n => (toLowerCase n =? toLowerCase nm)%string) l = true.
Proof.
  intros (n & Hn & E). apply existsb_exists. exists n.
  split; [assumption | now apply String.eqb_eq].
Qed.

Lemma setFeedback_same (s : App.State) : App.setFeedback (App.feedback s) s = s.
Proof. destruct s; reflexivity. Qed.

End Validation.

(** C5. On submit the checks run in this order and the first that fails ends
    the handler with nothing started: with no action selected the form is
    left as it is, without feedback; with an action and an empty name or
    manifest id the feedback is the error "Preencha todos os campos."; for
    the start action, with a non-empty name list none of whose entries
    equals the name up to case, it is the error "Por favor, escolha um nome
    válido da lista."; a name that does match up to case, the finish action
    and an empty list all go on to the duplicate guard; and the backend call
    is scheduled only for a submission that passed every check. *)
Theorem submit_validation_in_order (toLowerCase : string -> string) (s : App.State) :
  (App.action s = App.NoAction ->
   App.handleSubmit toLowerCase s
     = (App.setFeedback {| App.text := ""; App.type := App.type_empty |} s, []) /\
   (App.feedback s = {| App.text := ""; App.type := App.type_empty |} ->
    App.handleSubmit toLowerCase s = (s, []))) /\
  (App.action s <> App.NoAction ->
   App.name s = "" \/ App.selectedManifestoId s = "" ->
   App.handleSubmit toLowerCase s = Spec.rejected "Preencha todos os campos." s) /\
  (App.action s = App.Iniciar_Puxe ->
   App.name s <> "" -> App.selectedManifestoId s <> "" ->
   App.namesList s <> [] ->
   (forall n, In n (App.namesList s) -> toLowerCase n <> toLowerCase (App.name s)) ->
   App.handleSubmit toLowerCase s
     = Spec.rejected "Por favor, escolha um nome válido da lista." s) /\
  (App.action s <> App.NoAction ->
   App.name s <> "" -> App.selectedManifestoId s <> "" ->
   (App.action s = App.Finalizar_Puxe \/
    App.namesList s = [] \/
    exists n, In n (App.namesList s) /\ toLowerCase n = toLowerCase (App.name s)) ->
   App.handleSubmit toLowerCase s =
     if App.lastSubmission_is (Spec.fingerprint s) s
     then Spec.rejected "Este registro já foi enviado recentemente!" s
     else Spec.proceeds s) /\
  (snd (App.handleSubmit toLowerCase s) <> [] ->
   Spec.passes_validation toLowerCase s = true /\
   App.handleSubmit toLowerCase s = Spec.proceeds s).
Proof.
  repeat match goal with |- _ /\ _ => split end.
  - intros Ha. unfold App.handleSubmit. rewrite Ha. simpl.
    split; [reflexivity|].
    intros Hf. rewrite <- Hf. now rewrite setFeedback_same.
  - intros Ha Hempty. unfold App.handleSubmit, Spec.rejected.
    destruct (App.action s); [contradiction | |];
      destruct Hempty as [-> | ->]; simpl; rewrite ?orb_true_r; reflexivity.
  - intros Ha Hn Hi Hl Hnone. unfold App.handleSubmit, Spec.rejected.
    rewrite Ha. simpl.
    apply String.eqb_neq in Hn, Hi. rewrite Hn, Hi. simpl.
    rewrite (existsb_lower_false toLowerCase _ _ Hnone).
    destruct (App.namesList s); [contradiction | reflexivity].
  - intros Ha Hn Hi Hok. apply handleSubmit_valid.
    unfold Spec.passes_validation.
    apply String.eqb_neq in Hn, Hi. rewrite Hn, Hi.
    destruct (App.action s) eqn:E; [contradiction | | reflexivity].
    simpl. destruct Hok as [Hok | [Hok | Hok]]; [discriminate | |].
    + now rewrite Hok.
    + rewrite (existsb_lower_true toLowerCase _ _ Hok). apply orb_true_r.
  - intros H.
    destruct (Spec.passes_validation toLowerCase s) eqn:E.
    + split; [reflexivity|].
      rewrite handleSubmit_valid in * by assumption.
      destruct (App.lastSubmission_is _ s); [now simpl in H | reflexivity].
    + now rewrite handleSubmit_invalid in H.
Qed.

Lemma submit_validation_in_order_witness :
  App.handleSubmit App.ascii_lower
    (Fixture.state App.Iniciar_Puxe "Ana" "X1" ["ana"; "BEN"] None)
  = Spec.proceeds (Fixture.state App.Iniciar_Puxe "Ana" "X1" ["ana"; "BEN"] None) /\
  App.handleSubmit App.ascii_lower
    (Fixture.state App.Iniciar_Puxe "Carla" "X1" ["ana"; "BEN"] None)
  = Spec.rejected "Por favor, escolha um nome válido da lista."
      (Fixture.state App.Iniciar_Puxe "Carla" "X1" ["ana"; "BEN"] None) /\
  App.handleSubmit App.ascii_lower
    (Fixture.state App.Finalizar_Puxe "Carla" "" ["ana"; "BEN"] None)
  = Spec.rejected "Preencha todos os campos."
      (Fixture.state App.Finalizar_Puxe "Carla" "" ["ana"; "BEN"] None).
Proof.
  split; [|split].
  - refine (proj1 (proj2 (proj2 (proj2
              (submit_validation_in_order App.ascii_lower
                 (Fixture.state App.Iniciar_Puxe "Ana" "X1" ["ana"; "BEN"] None)))))
              _ _ _ _).
    + discriminate.
    + discriminate.
    + discriminate.
    + right. right. exists "ana". split; [now left | reflexivity].
  - refine (proj1 (proj2 (proj2
              (submit_validation_in_order App.ascii_lower
                 (Fixture.state App.Iniciar_Puxe "Carla" "X1" ["ana"; "BEN"] None))))
              eq_refl _ _ _ _).
    + discriminate.
    + discriminate.
    + discriminate.
    + simpl. intros n [<- | [<- | []]]; discriminate.
  - refine (proj1 (proj2
              (submit_validation_in_order App.ascii_lower
                 (Fixture.state App.Finalizar_Puxe "Carla" "" ["ana"; "BEN"] None)))
              _ _).
    + discriminate.
    + now right.
Defined.

Section Guard.

Variable toLowerCase : string -> string.

(** What the success branch of the callback leaves in [lastSubmission]. *)
Lemma submitSettled_success_arms (k : App.Closure) (result : ActionResult)
  (s : App.State) :
  success result = true ->
  App.lastSubmission (fst (App.submitSettled k result s)) = Some (App.submissionKey k).
Proof.
  intros Hs. unfold App.submitSettled. rewrite Hs.
  destruct (App.ActionType_eqb (App.captured_action k) App.Finalizar_Puxe);
    reflexivity.
Qed.

Lemma handleSubmit_keeps_lastSubmission (s : App.State) :
  App.lastSubmission (fst (App.handleSubmit toLowerCase s)) = App.lastSubmission s.
Proof.
  unfold App.handleSubmit.
  repeat match goal with
         | |- context [if ?b then _ else _] => destruct b
         end; reflexivity.
Qed.

(** Nothing but a callback that received [success: true] changes
    [lastSubmission]. *)
Lemma only_success_arms (e : App.Event) (s : App.State) :
  App.lastSubmission (fst (App.step toLowerCase e s)) <> App.lastSubmission s ->
  exists k result, e = App.SubmitSettled k result /\ success result = true.
Proof.
  destruct e; simpl; intros H;
    lazymatch goal with
    | |- exists _ _, App.SubmitSettled _ _ = _ /\ _ => idtac
    | |- _ => exfalso; apply H; clear H
    end.
  - destruct (App.ActionType_eqb a (App.action s)); [reflexivity|].
    unfold App.actionChanged. simpl. destruct a; reflexivity.
  - reflexivity.
  - unfold App.handleNameChange.
    destruct (App.ActionType_eqb (App.action s) App.Finalizar_Puxe && _);
      reflexivity.
  - reflexivity.
  - unfold App.handleRefresh.
    destruct (App.updating s); [reflexivity|]. destruct (App.action s); reflexivity.
  - apply handleSubmit_keeps_lastSubmission.
  - exists k, result. split; [reflexivity|].
    destruct (success result) eqn:E; [reflexivity|].
    exfalso. apply H. unfold App.submitSettled. now rewrite E.
  - unfold App.onChange_SMO_Sistema.
    destruct (App.action s); try reflexivity.
    destruct (negb _); reflexivity.
  - unfold App.onChange_Cadastro_Operacional. destruct (App.action s); reflexivity.
  - reflexivity.
  - reflexivity.
  - reflexivity.
  - reflexivity.
  - reflexivity.
  - reflexivity.
Qed.

End Guard.

(** C6. The fingerprint handed to the submit callback is computed from the
    action, the manifest id and the name alone, so two forms with the same
    triple have the same fingerprint whatever else differs (the timestamp of
    the log row is made later, inside [submitManifestoAction]); once a
    submission has succeeded, submitting the same triple again is rejected
    with "Este registro já foi enviado recentemente!"; and a triple that
    differs from the last one in one field has another fingerprint and goes
    past the guard. *)
Theorem fingerprint_of_the_triple (toLowerCase : string -> string) :
  (forall s ms k,
      In (App.CallSubmitAfter ms k) (snd (App.handleSubmit toLowerCase s)) ->
      App.submissionKey k
      = App.make_submissionKey (App.action s) (App.selectedManifestoId s) (App.name s)) /\
  (forall s s',
      App.action s = App.action s' ->
      App.selectedManifestoId s = App.selectedManifestoId s' ->
      App.name s = App.name s' ->
      Spec.fingerprint s = Spec.fingerprint s') /\
  (forall s s1 k result at_callback again,
      App.handleSubmit toLowerCase s = (s1, [App.CallSubmitAfter 1500 k]) ->
      success result = true ->
      App.lastSubmission again
      = App.lastSubmission (fst (App.submitSettled k result at_callback)) ->
      App.action again = App.action s ->
      App.selectedManifestoId again = App.selectedManifestoId s ->
      App.name again = App.name s ->
      App.namesList again = App.namesList s ->
      App.handleSubmit toLowerCase again
      = Spec.rejected "Este registro já foi enviado recentemente!" again) /\
  (forall a id nm a' id' nm',
      (a <> a' /\ id = id' /\ nm = nm') \/
      (a = a' /\ id <> id' /\ nm = nm') \/
      (a = a' /\ id = id' /\ nm <> nm') ->
      App.make_submissionKey a id nm <> App.make_submissionKey a' id' nm') /\
  (forall s a id nm,
      App.lastSubmission s = Some (App.make_submissionKey a id nm) ->
      (a <> App.action s /\ id = App.selectedManifestoId s /\ nm = App.name s) \/
      (a = App.action s /\ id <> App.selectedManifestoId s /\ nm = App.name s) \/
      (a = App.action s /\ id = App.selectedManifestoId s /\ nm <> App.name s) ->
      Spec.passes_validation toLowerCase s = true ->
      App.handleSubmit toLowerCase s = Spec.proceeds s).
Proof.
  assert (Hsep : forall a id nm a' id' nm',
             (a <> a' /\ id = id' /\ nm = nm') \/
             (a = a' /\ id <> id' /\ nm = nm') \/
             (a = a' /\ id = id' /\ nm <> nm') ->
             App.make_submissionKey a id nm <> App.make_submissionKey a' id' nm').
  { intros a id nm a' id' nm' [(Ha & <- & <-) | [(<- & Hi & <-) | (<- & <- & Hn)]] E.
    - now apply submissionKey_action in E.
    - now apply submissionKey_id in E.
    - now apply submissionKey_name in E. }
  repeat match goal with |- _ /\ _ => split end.
  - intros s ms k Hin.
    destruct (Spec.passes_validation toLowerCase s) eqn:E.
    + rewrite handleSubmit_valid in Hin by assumption.
      destruct (App.lastSubmission_is _ s); simpl in Hin; [contradiction|].
      destruct Hin as [[= _ <-] | []]. reflexivity.
    + rewrite handleSubmit_invalid in Hin by assumption. contradiction.
  - intros s s' Ha Hi Hn. unfold Spec.fingerprint. now rewrite Ha, Hi, Hn.
  - intros s s1 k result at_callback again Hfirst Hs Hlast Ha Hi Hn Hl.
    assert (Hv : Spec.passes_validation toLowerCase s = true).
    { destruct (Spec.passes_validation toLowerCase s) eqn:E; [reflexivity|].
      apply handleSubmit_invalid in E. rewrite Hfirst in E. discriminate E. }
    assert (Hk : App.submissionKey k = Spec.fingerprint s).
    { rewrite handleSubmit_valid in Hfirst by assumption.
      destruct (App.lastSubmission_is _ s); [discriminate Hfirst|].
      injection Hfirst as _ <-. reflexivity. }
    assert (Hv' : Spec.passes_validation toLowerCase again = true).
    { unfold Spec.passes_validation in *. now rewrite Ha, Hi, Hn, Hl. }
    rewrite handleSubmit_valid by assumption.
    rewrite submitSettled_success_arms in Hlast by assumption.
    assert (Hf : Spec.fingerprint again = Spec.fingerprint s).
    { unfold Spec.fingerprint. now rewrite Ha, Hi, Hn. }
    rewrite Hk, <- Hf in Hlast.
    apply lastSubmission_is_true in Hlast. now rewrite Hlast.
  - exact Hsep.
  - intros s a id nm Hlast Hdiff Hv.
    rewrite handleSubmit_valid by assumption.
    destruct (App.lastSubmission_is (Spec.fingerprint s) s) eqn:E; [|reflexivity].
    apply lastSubmission_is_true in E. rewrite Hlast in E. injection E as E.
    exfalso. exact (Hsep _ _ _ _ _ _ Hdiff E).
Qed.

Lemma fingerprint_of_the_triple_witness :
  App.handleSubmit App.ascii_lower
    (Fixture.state App.Iniciar_Puxe "Ana" "X1" ["ana"; "BEN"]
       (Some "Iniciar Puxe-X1-Ana"))
  = Spec.rejected "Este registro já foi enviado recentemente!"
      (Fixture.state App.Iniciar_Puxe "Ana" "X1" ["ana"; "BEN"]
         (Some "Iniciar Puxe-X1-Ana")) /\
  App.handleSubmit App.ascii_lower
    (Fixture.state App.Iniciar_Puxe "Ana" "X2" ["ana"; "BEN"]
       (Some "Iniciar Puxe-X1-Ana"))
  = Spec.proceeds
      (Fixture.state App.Iniciar_Puxe "Ana" "X2" ["ana"; "BEN"]
         (Some "Iniciar Puxe-X1-Ana")).
Proof.
  split.
  - refine (proj1 (proj2 (proj2 (fingerprint_of_the_triple App.ascii_lower)))
              (Fixture.state App.Iniciar_Puxe "Ana" "X1" ["ana"; "BEN"] None)
              _ _
              {| success := true; message := "Puxe registrado com sucesso!" |}
              (fst (App.handleSubmit App.ascii_lower
                      (Fixture.state App.Iniciar_Puxe "Ana" "X1" ["ana"; "BEN"] None)))
              (Fixture.state App.Iniciar_Puxe "Ana" "X1" ["ana"; "BEN"]
                 (Some "Iniciar Puxe-X1-Ana"))
              eq_refl eq_refl eq_refl eq_refl eq_refl eq_refl eq_refl).
  - refine (proj2 (proj2 (proj2 (proj2 (fingerprint_of_the_triple App.ascii_lower))))
              (Fixture.state App.Iniciar_Puxe "Ana" "X2" ["ana"; "BEN"]
                 (Some "Iniciar Puxe-X1-Ana"))
              App.Iniciar_Puxe "X1" "Ana" eq_refl _ eq_refl).
    right. left. repeat split. discriminate.
Defined.

(** C10. When the callback receives [success: false] it turns the overlay
    off and shows the message as error feedback, and that is all: the
    fingerprint of the last submission, the name, the manifest id and the
    list of the employee's manifests stay as they were, so that for a form
    that was idle the failed round trip changes the feedback alone; the same
    triple then goes past the duplicate guard again; and no event other than
    a callback that received [success: true] changes the fingerprint. *)
Theorem failure_leaves_form_resubmittable
  (toLowerCase : string -> string) (k : App.Closure) (result : ActionResult)
  (at_callback : App.State) :
  success result = false ->
  let failed := {| App.text := message result; App.type := App.type_error |} in
  App.submitSettled k result at_callback
    = (App.setFeedback failed (App.setLoading false at_callback), []) /\
  (let after := fst (App.submitSettled k result at_callback) in
   App.lastSubmission after = App.lastSubmission at_callback /\
   App.name after = App.name at_callback /\
   App.selectedManifestoId after = App.selectedManifestoId at_callback /\
   App.manifestosForEmployee after = App.manifestosForEmployee at_callback) /\
  (forall s,
      App.loading s = false -> App.loadingMessage s = "Processando..." ->
      App.handleSubmit toLowerCase s = Spec.proceeds s ->
      let after := fst (App.submitSettled k result
                          (fst (App.handleSubmit toLowerCase s))) in
      after = App.setFeedback failed s /\
      App.handleSubmit toLowerCase after = Spec.proceeds after /\
      snd (Spec.proceeds after) = snd (Spec.proceeds s)) /\
  (forall e s,
      App.lastSubmission (fst (App.step toLowerCase e s)) <> App.lastSubmission s ->
      exists k' result', e = App.SubmitSettled k' result' /\ success result' = true).
Proof.
  intros Hs failed. subst failed.
  assert (Hstep : App.submitSettled k result at_callback
                  = (App.setFeedback
                       {| App.text := message result; App.type := App.type_error |}
                       (App.setLoading false at_callback), [])).
  { unfold App.submitSettled. now rewrite Hs. }
  split; [exact Hstep|]. split; [rewrite Hstep; simpl; auto|].
  split; [|apply only_success_arms].
  intros s Hl Hm Hp after.
  assert (Hafter : after = App.setFeedback
                             {| App.text := message result; App.type := App.type_error |} s).
  { subst after. unfold App.submitSettled. rewrite Hs, Hp. simpl.
    destruct s; simpl in *; subst; reflexivity. }
  assert (Hv : Spec.passes_validation toLowerCase s = true).
  { destruct (Spec.passes_validation toLowerCase s) eqn:E; [reflexivity|].
    apply handleSubmit_invalid in E. rewrite Hp in E. discriminate E. }
  assert (Hg : App.lastSubmission_is (Spec.fingerprint s) s = false).
  { rewrite handleSubmit_valid in Hp by assumption.
    destruct (App.lastSubmission_is _ s); [discriminate Hp | reflexivity]. }
  split; [exact Hafter|].
  rewrite Hafter. split; [|reflexivity].
  rewrite handleSubmit_valid by exact Hv.
  change (App.lastSubmission_is (Spec.fingerprint s) s = false) in Hg.
  unfold App.lastSubmission_is, Spec.fingerprint in *. simpl.
  now rewrite Hg.
Qed.

Lemma failure_leaves_form_resubmittable_witness :
  App.submitSettled
    {| App.captured_action := App.Finalizar_Puxe;
       App.captured_selectedManifestoId := "X1";
       App.captured_name := "Ana";
       App.submissionKey := "Finalizar Puxe-X1-Ana" |}
    {| success := false; message := "Erro ao processar: connection refused" |}
    (fst (App.handleSubmit App.ascii_lower
            (Fixture.state App.Finalizar_Puxe "Ana" "X1" ["Ana"] None)))
  = (App.setFeedback
       {| App.text := "Erro ao processar: connection refused";
          App.type := App.type_error |}
       (Fixture.state App.Finalizar_Puxe "Ana" "X1" ["Ana"] None), []).
Proof.
  exact (proj1 (failure_leaves_form_resubmittable App.ascii_lower
                  {| App.captured_action := App.Finalizar_Puxe;
                     App.captured_selectedManifestoId := "X1";
                     App.captured_name := "Ana";
                     App.submissionKey := "Finalizar Puxe-X1-Ana" |}
                  {| success := false;
                     message := "Erro ao processar: connection refused" |}
                  (fst (App.handleSubmit App.ascii_lower
                          (Fixture.state App.Finalizar_Puxe "Ana" "X1" ["Ana"] None)))
                  eq_refl)).
Defined.

(* ================================================================== *)
(** * More on the read operations                                       *)
(* ================================================================== *)

Section MoreReads.

Lemma In_eq (R : Type) (col : R -> value) (v : string) (q : list R) (r : R) :
  In r (eq col v q) <-> In r q /\ col r = Some v.
Proof.
  unfold eq. rewrite filter_In, value_eqb_eq. tauto.
Qed.

Lemma In_is_null (R : Type) (col : R -> value) (q : list R) (r : R) :
  In r (is_null col q) <-> In r q /\ col r = None.
Proof.
  unfold is_null. rewrite filter_In.
  destruct (col r); split; intros [H1 H2]; split; congruence.
Qed.

Lemma In_not_is_null (R : Type) (col : R -> value) (q : list R) (r : R) :
  In r (not_is_null col q) <-> In r q /\ col r <> None.
Proof.
  unfold not_is_null. rewrite filter_In.
  destruct (col r); split; intros [H1 H2]; split; congruence.
Qed.

Lemma In_neq_null (R : Type) (col : R -> value) (q : list R) (r : R) :
  In r (neq_null col q) <-> In r q /\ col r <> None.
Proof.
  unfold neq_null. rewrite filter_In.
  destruct (col r); split; intros [H1 H2]; split; congruence.
Qed.

(** Membership in a column that went through [Set], [filter(Boolean)] and
    [sort()]. *)
Lemma In_unique_sorted (column : list value) (v : value) :
  In v (sort (filter Boolean (Array_from_Set column)))
  <-> Boolean v = true /\ In v column.
Proof.
  rewrite sort_In, filter_In, Array_from_Set_In. tauto.
Qed.

(** Two ascending lists without repetition that have the same elements are
    the same list. *)
Lemma sorted_texts_unique (l1 l2 : list string) :
  NoDup l1 -> NoDup l2 ->
  StronglySorted (fun a b => (a <=? b)%string = true) l1 ->
  StronglySorted (fun a b => (a <=? b)%string = true) l2 ->
  (forall s, In s l1 <-> In s l2) ->
  l1 = l2.
Proof.
  revert l2. induction l1 as [| a l1 IH]; intros [| b l2] N1 N2 S1 S2 H.
  - reflexivity.
  - exfalso. apply (proj2 (H b)). now left.
  - exfalso. apply (proj1 (H a)). now left.
  - inversion N1 as [| ? ? Na N1']; inversion N2 as [| ? ? Nb N2']; subst.
    inversion S1 as [| ? ? S1' F1]; inversion S2 as [| ? ? S2' F2]; subst.
    rewrite Forall_forall in F1, F2.
    assert (a = b) as <-.
    { destruct (proj1 (H a) (or_introl Logic.eq_refl)) as [E | Ha]; [now symmetry|].
      destruct (proj2 (H b) (or_introl Logic.eq_refl)) as [E | Hb]; [assumption|].
      apply String.leb_antisym; [now apply F1 | now apply F2]. }
    f_equal. apply IH; try assumption.
    intros s. split; intros Hs.
    + destruct (proj1 (H s) (or_intror Hs)) as [E | ?]; [|assumption].
      subst. contradiction.
    + destruct (proj2 (H s) (or_intror Hs)) as [E | ?]; [|assumption].
      subst. contradiction.
Qed.

(** The list built from a column depends on the values of the column only,
    not on their order or number. *)
Lemma unique_sorted_by_content (c1 c2 : list value) :
  (forall v, In v c1 <-> In v c2) ->
  sort (filter Boolean (Array_from_Set c1)) = sort (filter Boolean (Array_from_Set c2)).
Proof.
  intros H.
  destruct (unique_sorted_texts c1) as (t1 & E1 & N1 & S1 & I1).
  destruct (unique_sorted_texts c2) as (t2 & E2 & N2 & S2 & I2).
  rewrite E1, E2. f_equal.
  apply sorted_texts_unique; try assumption.
  intros s. rewrite I1, I2, H. tauto.
Qed.

End MoreReads.

(** X1. On a healthy store [fetchIdsByStatus] returns exactly the non-empty
    ids of the rows whose [Status] is the given one, each once, in ascending
    order; the later revision has it unchanged. *)
Theorem fetchIdsByStatus_exact_unique_sorted
  (status : string) (c : Conditions) (w : World) :
  select_health c = Healthy ->
  (exists ids : list string,
      Services_api.fetchIdsByStatus status c w = map Some ids /\
      NoDup ids /\
      StronglySorted (fun a b => (a <=? b)%string = true) ids /\
      (forall s, In s ids <->
                 s <> "" /\
                 exists r, In r (tbl_SMO_Sistema w) /\
                           SMO_Sistema.Status r = Some status /\
                           SMO_Sistema.ID_Manifesto r = Some s)) /\
  Part_001.fetchIdsByStatus status c w = Services_api.fetchIdsByStatus status c w.
Proof.
  intros Hh. split; [|reflexivity].
  unfold Services_api.fetchIdsByStatus. rewrite Hh. simpl.
  destruct (unique_sorted_texts
              (map SMO_Sistema.ID_Manifesto
                   (eq SMO_Sistema.Status status (tbl_SMO_Sistema w))))
    as (ids & E & N & S & I).
  exists ids. repeat split; try assumption.
  - now apply I.
  - apply I in H. destruct H as [_ H]. apply in_map_iff in H.
    destruct H as (r & Hr & Hin). apply In_eq in Hin. exists r. tauto.
  - intros (Hne & r & Hin & Hs & Hid). apply I. split; [assumption|].
    apply in_map_iff. exists r. split; [assumption|]. now apply In_eq.
Qed.

Lemma fetchIdsByStatus_exact_unique_sorted_witness :
  Services_api.fetchIdsByStatus "Manifesto Recebido" Fixture.healthy
    (Fixture.world []
       [ Fixture.manifest "B2" "Manifesto Recebido" "" "CIA A" None None;
         Fixture.manifest "A1" "Manifesto Recebido" "" "CIA A" None None;
         Fixture.manifest "C3" "Manifesto Iniciado" "Ana" "CIA A" None None;
         Fixture.manifest "B2" "Manifesto Recebido" "" "CIA B" None None ])
  = [Some "A1"; Some "B2"] /\
  Part_001.fetchIdsByStatus "Manifesto Recebido" Fixture.healthy
    (Fixture.world [] [])
  = Services_api.fetchIdsByStatus "Manifesto Recebido" Fixture.healthy
      (Fixture.world [] []).
Proof.
  split; [reflexivity|].
  exact (proj2 (fetchIdsByStatus_exact_unique_sorted "Manifesto Recebido"
                  Fixture.healthy (Fixture.world [] []) Logic.eq_refl)).
Defined.

(** X2. When the read does not come back healthy (a reported error, no data,
    or an exception), every list operation other than [fetchCIAs] returns the
    empty list. *)
Theorem reads_degrade_to_empty
  (c : Conditions) (w : World) (status name cia : string) :
  select_health c <> Healthy ->
  Services_api.fetchNames (Some status) c w = [] /\
  Services_api.fetchIdsByStatus status c w = [] /\
  Services_api.fetchManifestosForEmployee name c w = [] /\
  Services_api.fetchManifestosByCIA cia c w = [] /\
  Part_001.fetchNamesForFinalization c w = [] /\
  Part_001.fetchNamesByStatus status c w = [] /\
  Part_001.fetchManifestosForEmployee name c w = [] /\
  Part_001.fetchManifestosByCIA cia c w = [].
Proof.
  intros Hh.
  unfold Services_api.fetchNames, Services_api.fetchIdsByStatus,
    Services_api.fetchManifestosForEmployee, Services_api.fetchManifestosByCIA,
    Part_001.fetchNamesForFinalization, Part_001.fetchNamesByStatus,
    Part_001.fetchManifestosForEmployee, Part_001.fetchManifestosByCIA.
  destruct (select_health c); [contradiction | | |]; simpl; repeat split.
Qed.

Lemma reads_degrade_to_empty_witness :
  Part_001.fetchNamesForFinalization
    (Fixture.conditions (ReportsError Fixture.boom) Healthy Healthy Healthy)
    (Fixture.world ["Ana"]
       [Fixture.manifest "A1" "Manifesto Iniciado" "Ana" "CIA A" None (Some "t")])
  = [].
Proof.
  refine (proj1 (proj2 (proj2 (proj2 (proj2
            (reads_degrade_to_empty
               (Fixture.conditions (ReportsError Fixture.boom) Healthy Healthy Healthy)
               (Fixture.world ["Ana"]
                  [Fixture.manifest "A1" "Manifesto Iniciado" "Ana" "CIA A"
                     None (Some "t")])
               "Manifesto Iniciado" "Ana" "CIA A" _)))))).
  discriminate.
Defined.

(** The name a row stands for: the first of [Usuario_Operacao],
    [Usuario_Operação], [Usuario] that is neither absent nor empty. *)
Lemma employee_of_first_filled (r : SMO_Sistema.row) (s : string) :
  s <> "" ->
  (Part_001.employee_of r = Some s <->
   SMO_Sistema.Usuario_Operacao r = Some s \/
   (Boolean (SMO_Sistema.Usuario_Operacao r) = false /\
    SMO_Sistema.Usuario_Operação r = Some s) \/
   (Boolean (SMO_Sistema.Usuario_Operacao r) = false /\
    Boolean (SMO_Sistema.Usuario_Operação r) = false /\
    SMO_Sistema.Usuario r = Some s)).
Proof.
  intros Hne. unfold Part_001.employee_of.
  assert (Hs : Boolean (Some s) = true) by (apply Boolean_true; now exists s).
  destruct (Boolean (SMO_Sistema.Usuario_Operacao r)) eqn:E1.
  - split; [tauto|]. intros [H | [[H _] | [H _]]]; [assumption | discriminate..].
  - destruct (Boolean (SMO_Sistema.Usuario_Operação r)) eqn:E2.
    + split; [tauto|].
      intros [H | [[_ H] | (_ & H & _)]]; [congruence | assumption | discriminate].
    + split; [tauto|].
      intros [H | [[_ H] | (_ & _ & H)]]; [congruence | congruence | assumption].
Qed.

(** X3. On a healthy store [fetchNamesForFinalization] returns, each once and
    in ascending order, the names of the rows whose [Manifesto_Disponivel] is
    absent and whose [Manifesto_Iniciado] is present, the name of a row being
    the first of [Usuario_Operacao], [Usuario_Operação], [Usuario] that is
    neither absent nor empty. *)
Theorem fetchNamesForFinalization_first_filled_spelling
  (c : Conditions) (w : World) :
  select_health c = Healthy ->
  exists names : list string,
    Part_001.fetchNamesForFinalization c w = map Some names /\
    NoDup names /\
    StronglySorted (fun a b => (a <=? b)%string = true) names /\
    (forall s, In s names <->
       s <> "" /\
       exists r, In r (tbl_SMO_Sistema w) /\
         SMO_Sistema.Manifesto_Disponivel r = None /\
         SMO_Sistema.Manifesto_Iniciado r <> None /\
         (SMO_Sistema.Usuario_Operacao r = Some s \/
          (Boolean (SMO_Sistema.Usuario_Operacao r) = false /\
           SMO_Sistema.Usuario_Operação r = Some s) \/
          (Boolean (SMO_Sistema.Usuario_Operacao r) = false /\
           Boolean (SMO_Sistema.Usuario_Operação r) = false /\
           SMO_Sistema.Usuario r = Some s))).
Proof.
  intros Hh. unfold Part_001.fetchNamesForFinalization. rewrite Hh. simpl.
  destruct (unique_sorted_texts
              (map Part_001.employee_of
                   (not_is_null SMO_Sistema.Manifesto_Iniciado
                      (is_null SMO_Sistema.Manifesto_Disponivel (tbl_SMO_Sistema w)))))
    as (names & E & N & S & I).
  exists names. repeat split; try assumption.
  - now apply I.
  - apply I in H. destruct H as [Hne H]. apply in_map_iff in H.
    destruct H as (r & Hr & Hin).
    apply In_not_is_null in Hin. destruct Hin as [Hin Hi].
    apply In_is_null in Hin. destruct Hin as [Hin Hd].
    exists r. repeat split; try assumption.
    now apply employee_of_first_filled.
  - intros (Hne & r & Hin & Hd & Hi & Hname). apply I. split; [assumption|].
    apply in_map_iff. exists r. split.
    + now apply employee_of_first_filled.
    + apply In_not_is_null. split; [|assumption]. now apply In_is_null.
Qed.

Lemma fetchNamesForFinalization_first_filled_spelling_witness :
  Part_001.fetchNamesForFinalization Fixture.healthy
    (Fixture.world []
       [ Fixture.manifest "A1" "Manifesto Iniciado" "Maria" "CIA A" None (Some "t1");
         {| SMO_Sistema.ID_Manifesto := Some "B2";
            SMO_Sistema.Status := Some "Manifesto Iniciado";
            SMO_Sistema.Usuario_Operacao := Some "";
            SMO_Sistema.Usuario_Operação := None;
            SMO_Sistema.Usuario := Some "Ana";
            SMO_Sistema.CIA := None;
            SMO_Sistema.Manifesto_Disponivel := None;
            SMO_Sistema.Manifesto_Iniciado := Some "t2" |};
         Fixture.manifest "C3" "Manifesto Iniciado" "Ben" "CIA A" (Some "t0") (Some "t3");
         Fixture.manifest "D4" "Manifesto Recebido" "Carla" "CIA A" None None ])
  = [Some "Ana"; Some "Maria"] /\
  exists names : list string,
    Part_001.fetchNamesForFinalization Fixture.healthy (Fixture.world [] [])
    = map Some names.
Proof.
  split; [reflexivity|].
  destruct (fetchNamesForFinalization_first_filled_spelling Fixture.healthy
              (Fixture.world [] []) Logic.eq_refl) as (names & E & _).
  exists names. exact E.
Defined.

(** X4. On a healthy store [fetchNamesByStatus] returns, each once and in
    ascending order, the non-empty names (first filled spelling) of the rows
    whose [Status] is the given one. *)
Theorem fetchNamesByStatus_exact_unique_sorted
  (status : string) (c : Conditions) (w : World) :
  select_health c = Healthy ->
  exists names : list string,
    Part_001.fetchNamesByStatus status c w = map Some names /\
    NoDup names /\
    StronglySorted (fun a b => (a <=? b)%string = true) names /\
    (forall s, In s names <->
       s <> "" /\
       exists r, In r (tbl_SMO_Sistema w) /\
         SMO_Sistema.Status r = Some status /\
         Part_001.employee_of r = Some s).
Proof.
  intros Hh. unfold Part_001.fetchNamesByStatus. rewrite Hh. simpl.
  destruct (unique_sorted_texts
              (map Part_001.employee_of
                   (eq SMO_Sistema.Status status (tbl_SMO_Sistema w))))
    as (names & E & N & S & I).
  exists names. repeat split; try assumption.
  - now apply I.
  - apply I in H. destruct H as [Hne H]. apply in_map_iff in H.
    destruct H as (r & Hr & Hin). apply In_eq in Hin. exists r. tauto.
  - intros (Hne & r & Hin & Hs & Hname). apply I. split; [assumption|].
    apply in_map_iff. exists r. split; [assumption|]. now apply In_eq.
Qed.

Lemma fetchNamesByStatus_exact_unique_sorted_witness :
  Part_001.fetchNamesByStatus "Manifesto Iniciado" Fixture.healthy
    (Fixture.world []
       [ Fixture.manifest "A1" "Manifesto Iniciado" "Maria" "CIA A" None None;
         Fixture.manifest "B2" "Manifesto Recebido" "Ben" "CIA A" None None;
         Fixture.manifest "C3" "Manifesto Iniciado" "Ana" "CIA A" None None;
         Fixture.manifest "D4" "Manifesto Iniciado" "Maria" "CIA A" None None ])
  = [Some "Ana"; Some "Maria"] /\
  exists names : list string,
    Part_001.fetchNamesByStatus "Manifesto Iniciado" Fixture.healthy
      (Fixture.world [] [])
    = map Some names.
Proof.
  split; [reflexivity|].
  destruct (fetchNamesByStatus_exact_unique_sorted "Manifesto Iniciado"
              Fixture.healthy (Fixture.world [] []) Logic.eq_refl)
    as (names & E & _).
  exists names. exact E.
Defined.

(** X5. In the marker-column revision the two finalization reads fit
    together: an employee with a non-empty name for whom
    [fetchManifestosForEmployee] finds a manifest is among the names
    [fetchNamesForFinalization] offers. *)
Theorem employee_with_open_manifest_is_offered
  (name : string) (c : Conditions) (w : World) :
  select_health c = Healthy ->
  name <> "" ->
  Part_001.fetchManifestosForEmployee name c w <> [] ->
  In (Some name) (Part_001.fetchNamesForFinalization c w).
Proof.
  intros Hh Hne Hsome.
  unfold Part_001.fetchManifestosForEmployee in Hsome.
  unfold Part_001.fetchNamesForFinalization.
  rewrite Hh in *. simpl in *.
  destruct (not_is_null SMO_Sistema.Manifesto_Iniciado
              (is_null SMO_Sistema.Manifesto_Disponivel
                 (eq SMO_Sistema.Usuario_Operacao name (tbl_SMO_Sistema w))))
    as [| r rest] eqn:E; [contradiction|].
  assert (Hr : In r (r :: rest)) by now left.
  rewrite <- E in Hr.
  apply In_not_is_null in Hr. destruct Hr as [Hr Hi].
  apply In_is_null in Hr. destruct Hr as [Hr Hd].
  apply In_eq in Hr. destruct Hr as [Hr Hu].
  apply In_unique_sorted. split; [apply Boolean_true; now exists name|].
  apply in_map_iff. exists r. split.
  - apply employee_of_first_filled; [assumption | now left].
  - apply In_not_is_null. split; [|assumption]. now apply In_is_null.
Qed.

Lemma employee_with_open_manifest_is_offered_witness :
  In (Some "Ana")
     (Part_001.fetchNamesForFinalization Fixture.healthy
        (Fixture.world []
           [ Fixture.manifest "A1" "Manifesto Iniciado" "Ana" "CIA A" None (Some "t1") ])).
Proof.
  apply (employee_with_open_manifest_is_offered "Ana" Fixture.healthy
           (Fixture.world []
              [ Fixture.manifest "A1" "Manifesto Iniciado" "Ana" "CIA A"
                  None (Some "t1") ])).
  - reflexivity.
  - discriminate.
  - discriminate.
Defined.

(** X6. On a healthy store [fetchManifestosByCIA] returns the ids of the rows
    of that company code in table order, and the codes [fetchCIAs] lists are
    exactly those for which it finds a manifest. *)
Theorem listed_CIAs_are_those_with_manifests (c : Conditions) (w : World) :
  select_health c = Healthy ->
  (forall cia,
      Services_api.fetchManifestosByCIA cia c w
      = map SMO_Sistema.ID_Manifesto
          (filter (fun r => value_eqb (SMO_Sistema.CIA r) (Some cia))
                  (tbl_SMO_Sistema w))) /\
  (forall v,
      In v (Services_api.fetchCIAs c w) <->
      exists cia, v = Some cia /\ Services_api.fetchManifestosByCIA cia c w <> []).
Proof.
  intros Hh.
  unfold Services_api.fetchManifestosByCIA, Services_api.fetchCIAs.
  rewrite Hh. simpl. split; [reflexivity|].
  intros v. rewrite sort_In, Array_from_Set_In, in_map_iff. split.
  - intros (r & <- & Hr). apply In_neq_null in Hr. destruct Hr as [Hr Hn].
    destruct (SMO_Sistema.CIA r) as [cia|] eqn:E; [|contradiction].
    exists cia. split; [reflexivity|].
    intros Hnil. apply map_eq_nil in Hnil.
    assert (Hin : In r (eq SMO_Sistema.CIA cia (tbl_SMO_Sistema w)))
      by now apply In_eq.
    rewrite Hnil in Hin. contradiction.
  - intros (cia & -> & Hsome).
    destruct (eq SMO_Sistema.CIA cia (tbl_SMO_Sistema w)) as [| r rest] eqn:E.
    + exfalso. now apply Hsome.
    + assert (Hr : In r (r :: rest)) by now left.
      rewrite <- E in Hr. apply In_eq in Hr. destruct Hr as [Hr Hc].
      exists r. split; [assumption|]. apply In_neq_null. split; [assumption|].
      congruence.
Qed.

Lemma listed_CIAs_are_those_with_manifests_witness :
  Services_api.fetchCIAs Fixture.healthy
    (Fixture.world []
       [ Fixture.manifest "B2" "Manifesto Recebido" "" "Sul" None None;
         Fixture.manifest "A1" "Manifesto Recebido" "" "Norte" None None;
         Fixture.manifest "C3" "Manifesto Iniciado" "Ana" "Sul" None None ])
  = [Some "Norte"; Some "Sul"] /\
  Services_api.fetchManifestosByCIA "Sul" Fixture.healthy
    (Fixture.world []
       [ Fixture.manifest "B2" "Manifesto Recebido" "" "Sul" None None;
         Fixture.manifest "A1" "Manifesto Recebido" "" "Norte" None None;
         Fixture.manifest "C3" "Manifesto Iniciado" "Ana" "Sul" None None ])
  = [Some "B2"; Some "C3"].
Proof.
  split; [reflexivity|].
  exact (proj1 (listed_CIAs_are_those_with_manifests Fixture.healthy
                  (Fixture.world []
                     [ Fixture.manifest "B2" "Manifesto Recebido" "" "Sul" None None;
                       Fixture.manifest "A1" "Manifesto Recebido" "" "Norte" None None;
                       Fixture.manifest "C3" "Manifesto Iniciado" "Ana" "Sul" None None ])
                  Logic.eq_refl) "Sul").
Defined.

(** X7. The plain [fetchManifestosForEmployee] of [src/services/api.ts]
    lists an id exactly for the rows of that employee whose [Status] is
    "Manifesto Iniciado", and the two marker columns play no part in it. *)
Theorem plain_fetchManifestosForEmployee_ignores_markers
  (name : string) (c : Conditions) (w : World) :
  (select_health c = Healthy ->
   forall v,
     In v (Services_api.fetchManifestosForEmployee name c w) <->
     exists r, In r (tbl_SMO_Sistema w) /\
               SMO_Sistema.Usuario_Operacao r = Some name /\
               SMO_Sistema.Status r = Some "Manifesto Iniciado" /\
               SMO_Sistema.ID_Manifesto r = v) /\
  (forall f g,
      Services_api.fetchManifestosForEmployee name c (Vary.remark f g w)
      = Services_api.fetchManifestosForEmployee name c w).
Proof.
  split.
  - intros Hh v. unfold Services_api.fetchManifestosForEmployee.
    rewrite Hh. simpl. rewrite in_map_iff. split.
    + intros (r & <- & Hr). apply In_eq in Hr. destruct Hr as [Hr Hs].
      apply In_eq in Hr. exists r. tauto.
    + intros (r & Hin & Hu & Hs & <-). exists r. split; [reflexivity|].
      apply In_eq. split; [|assumption]. now apply In_eq.
  - intros f g. rewrite !plain_fetchManifestosForEmployee_by_Status.
    destruct (select_health c); try reflexivity.
    simpl. rewrite filter_map_commute, map_map. reflexivity.
Qed.

Lemma plain_fetchManifestosForEmployee_ignores_markers_witness :
  In (Some "A1")
     (Services_api.fetchManifestosForEmployee "Ana" Fixture.healthy
        (Fixture.world []
           [ Fixture.manifest "A1" "Manifesto Iniciado" "Ana" "CIA A"
               (Some "t0") None ])).
Proof.
  apply (proj1 (plain_fetchManifestosForEmployee_ignores_markers "Ana"
                  Fixture.healthy
                  (Fixture.world []
                     [ Fixture.manifest "A1" "Manifesto Iniciado" "Ana" "CIA A"
                         (Some "t0") None ]))
               Logic.eq_refl).
  eexists. split; [now left|]. repeat split.
Defined.

(** X8. [fetchNames] and [fetchIdsByStatus] depend on which rows the table
    holds, not on their order or on how often a row occurs. *)
Theorem name_and_id_lists_ignore_row_order
  (status : option string) (st : string) (c : Conditions) (w1 w2 : World) :
  (forall r, In r (tbl_Cadastro_Operacional w1) <-> In r (tbl_Cadastro_Operacional w2)) ->
  (forall r, In r (tbl_SMO_Sistema w1) <-> In r (tbl_SMO_Sistema w2)) ->
  Services_api.fetchNames status c w1 = Services_api.fetchNames status c w2 /\
  Services_api.fetchIdsByStatus st c w1 = Services_api.fetchIdsByStatus st c w2.
Proof.
  intros Hc Hs.
  unfold Services_api.fetchNames, Services_api.fetchIdsByStatus.
  destruct (select_health c); simpl; try (split; reflexivity).
  split; apply unique_sorted_by_content; intros v; rewrite !in_map_iff.
  - split; intros (r & E & Hr); exists r; (split; [assumption | now apply Hc]).
  - split; intros (r & E & Hr); exists r; (split; [assumption|]);
      apply In_eq in Hr; apply In_eq; destruct Hr as [Hr Hst];
      (split; [now apply Hs | assumption]).
Qed.

Lemma name_and_id_lists_ignore_row_order_witness :
  Services_api.fetchNames None Fixture.healthy
    (Fixture.world ["Maria"; "Ana"] [])
  = Services_api.fetchNames None Fixture.healthy
      (Fixture.world ["Ana"; "Maria"; "Ana"] []).
Proof.
  refine (proj1 (name_and_id_lists_ignore_row_order None "Manifesto Recebido"
                   Fixture.healthy
                   (Fixture.world ["Maria"; "Ana"] [])
                   (Fixture.world ["Ana"; "Maria"; "Ana"] []) _ _)).
  - intros r. simpl. tauto.
  - intros r. simpl. tauto.
Defined.

(* ================================================================== *)
(** * More on the submit operation                                      *)
(* ================================================================== *)

(** X9. When the insert throws, every revision answers with the failure
    message "Erro ao processar: ..." and stops there: the insert is the only
    request issued, so no update and no webhook follow, and the log and the
    manifest table are as they were. *)
Theorem thrown_insert_stops_the_submission
  (action id name : string) (e : Error) (c : Conditions) (w : World) :
  insert_health c = Throws e ->
  let failure := {| success := false;
                    message := ("Erro ao processar: " ++ Js.message e)%string |} in
  (fst (Services_api.submitManifestoAction action id name c w) = Async.Returned failure /\
   fst (Part_000.submitManifestoAction action id name c w) = Async.Returned failure /\
   fst (Part_001.submitManifestoAction action id name c w) = Async.Returned failure) /\
  (calls (snd (Services_api.submitManifestoAction action id name c w))
   = calls w ++ [Insert (Spec.log_row action id name c)] /\
   calls (snd (Part_000.submitManifestoAction action id name c w))
   = calls w ++ [Insert (Spec.log_row action id name c)] /\
   calls (snd (Part_001.submitManifestoAction action id name c w))
   = calls w ++ [Insert (Spec.log_row action id name c)]) /\
  (tbl_registros_operacionais
     (snd (Services_api.submitManifestoAction action id name c w))
   = tbl_registros_operacionais w /\
   tbl_registros_operacionais
     (snd (Part_000.submitManifestoAction action id name c w))
   = tbl_registros_operacionais w /\
   tbl_registros_operacionais
     (snd (Part_001.submitManifestoAction action id name c w))
   = tbl_registros_operacionais w) /\
  (tbl_SMO_Sistema (snd (Services_api.submitManifestoAction action id name c w))
   = tbl_SMO_Sistema w /\
   tbl_SMO_Sistema (snd (Part_000.submitManifestoAction action id name c w))
   = tbl_SMO_Sistema w /\
   tbl_SMO_Sistema (snd (Part_001.submitManifestoAction action id name c w))
   = tbl_SMO_Sistema w).
Proof.
  intros Hi failure. subst failure.
  destruct (thrown_insert_is_reported action id name c w e Hi) as (H1 & H2 & H3).
  rewrite H1, H2, H3. simpl. repeat split.
Qed.

Lemma thrown_insert_stops_the_submission_witness :
  calls (snd (Part_001.submitManifestoAction "Iniciar Manifesto" "X1" "Joao"
                (Fixture.conditions Healthy (Throws Fixture.boom) Healthy Healthy)
                (Fixture.world [] [])))
  = [] ++ [Insert (Spec.log_row "Iniciar Manifesto" "X1" "Joao" Fixture.healthy)].
Proof.
  exact (proj2 (proj2 (proj1 (proj2
           (thrown_insert_stops_the_submission "Iniciar Manifesto" "X1" "Joao"
              Fixture.boom
              (Fixture.conditions Healthy (Throws Fixture.boom) Healthy Healthy)
              (Fixture.world [] []) Logic.eq_refl))))).
Defined.

(** X12. No revision lets an exception escape, and the caller is told of a
    failure in exactly two cases: the insert threw, or the insert succeeded
    and the update threw. An insert or an update that is answered with an
    error, and anything the webhook does, still gives [success: true]. *)
Theorem failure_is_reported_only_for_exceptions
  (action id name : string) (c : Conditions) (w : World) :
  let thrown :=
    Spec.threw (insert_health c) = true \/
    (Spec.succeeded (insert_health c) = true /\ Spec.threw (update_health c) = true) in
  (exists r,
      fst (Services_api.submitManifestoAction action id name c w) = Async.Returned r /\
      (success r = false <-> thrown)) /\
  (exists r,
      fst (Part_000.submitManifestoAction action id name c w) = Async.Returned r /\
      (success r = false <-> thrown)) /\
  (exists r,
      fst (Part_001.submitManifestoAction action id name c w) = Async.Returned r /\
      (success r = false <-> thrown)).
Proof.
  intros thrown. subst thrown. repeat split.
  all: unfold_submit; simpl.
  all: destruct (insert_health c); simpl.
  all: try (destruct (update_health c); simpl).
  all: repeat step_submit.
  all: eexists; (split; [reflexivity|]); simpl.
  all: split; [try discriminate; tauto|].
  all: intros [H | [H1 H2]]; try discriminate; reflexivity.
Qed.

(** X10. When the insert has succeeded and the update then throws, every
    revision answers with the failure message although the log row is
    written, and issues nothing after the update: no webhook is called. *)
Theorem thrown_update_is_reported_after_logging
  (action id name : string) (e : Error) (c : Conditions) (w : World) :
  Spec.succeeded (insert_health c) = true ->
  update_health c = Throws e ->
  let failure := {| success := false;
                    message := ("Erro ao processar: " ++ Js.message e)%string |} in
  let newStatus (start : string) :=
    if (action =? start)%string then "Manifesto Iniciado" else "Manifesto Finalizado" in
  let logged :=
    Async.append_registro (Spec.log_row action id name c)
      (Async.issue (Insert (Spec.log_row action id name c)) w) in
  Services_api.submitManifestoAction action id name c w
    = (Async.Returned failure,
       Async.issue (Update (newStatus "Iniciar Puxe") name id) logged) /\
  Part_000.submitManifestoAction action id name c w
    = (Async.Returned failure,
       Async.issue (Update (newStatus "Iniciar Manifesto") name id) logged) /\
  Part_001.submitManifestoAction action id name c w
    = (Async.Returned failure,
       Async.issue (Update (newStatus "Iniciar Manifesto") name id) logged).
Proof.
  intros Hi Hu failure newStatus logged. subst failure newStatus logged.
  unfold Spec.log_row. unfold_submit. simpl.
  destruct (insert_health c); try discriminate Hi; simpl;
    rewrite ?Hu; simpl; repeat step_submit; auto.
Qed.

Lemma thrown_update_is_reported_after_logging_witness :
  Services_api.submitManifestoAction "Iniciar Puxe" "X1" "Joao"
    (Fixture.conditions Healthy Healthy (Throws Fixture.boom) Healthy)
    (Fixture.world [] [Fixture.manifest "X1" "Manifesto Recebido" "" "CIA A" None None])
  = (Async.Returned
       {| success := false; message := "Erro ao processar: connection refused" |},
     {| tbl_Cadastro_Operacional := [];
        tbl_SMO_Sistema :=
          [Fixture.manifest "X1" "Manifesto Recebido" "" "CIA A" None None];
        tbl_registros_operacionais :=
          [Spec.log_row "Iniciar Puxe" "X1" "Joao" Fixture.healthy];
        calls :=
          [ Insert (Spec.log_row "Iniciar Puxe" "X1" "Joao" Fixture.healthy);
            Update "Manifesto Iniciado" "Joao" "X1" ] |}).
Proof.
  exact (proj1
           (thrown_update_is_reported_after_logging "Iniciar Puxe" "X1" "Joao"
              Fixture.boom
              (Fixture.conditions Healthy Healthy (Throws Fixture.boom) Healthy)
              (Fixture.world []
                 [Fixture.manifest "X1" "Manifesto Recebido" "" "CIA A" None None])
              Logic.eq_refl Logic.eq_refl)).
Defined.

(** X11. An update that the store answers with an error is not noticed: the
    answer and the requests are those of a successful update, and the
    manifest table stays as it was. *)
Theorem reported_update_error_is_silent
  (action id name : string) (e : Error) (c : Conditions) (w : World) :
  update_health c = ReportsError e ->
  (fst (Services_api.submitManifestoAction action id name c w)
   = fst (Services_api.submitManifestoAction action id name
            (Vary.with_update_health Healthy c) w) /\
   calls (snd (Services_api.submitManifestoAction action id name c w))
   = calls (snd (Services_api.submitManifestoAction action id name
                   (Vary.with_update_health Healthy c) w)) /\
   tbl_SMO_Sistema (snd (Services_api.submitManifestoAction action id name c w))
   = tbl_SMO_Sistema w) /\
  (fst (Part_000.submitManifestoAction action id name c w)
   = fst (Part_000.submitManifestoAction action id name
            (Vary.with_update_health Healthy c) w) /\
   calls (snd (Part_000.submitManifestoAction action id name c w))
   = calls (snd (Part_000.submitManifestoAction action id name
                   (Vary.with_update_health Healthy c) w)) /\
   tbl_SMO_Sistema (snd (Part_000.submitManifestoAction action id name c w))
   = tbl_SMO_Sistema w) /\
  (fst (Part_001.submitManifestoAction action id name c w)
   = fst (Part_001.submitManifestoAction action id name
            (Vary.with_update_health Healthy c) w) /\
   calls (snd (Part_001.submitManifestoAction action id name c w))
   = calls (snd (Part_001.submitManifestoAction action id name
                   (Vary.with_update_health Healthy c) w)) /\
   tbl_SMO_Sistema (snd (Part_001.submitManifestoAction action id name c w))
   = tbl_SMO_Sistema w).
Proof.
  intros Hu. repeat split.
  all: unfold_submit; simpl.
  all: destruct (insert_health c); simpl; rewrite ?Hu; simpl.
  all: repeat step_submit.
  all: reflexivity.
Qed.

Lemma reported_update_error_is_silent_witness :
  Part_001.submitManifestoAction "Finalizar Manifesto" "X1" "Joao"
    (Fixture.conditions Healthy Healthy (ReportsError Fixture.boom) Healthy)
    (Fixture.world [] [Fixture.manifest "X1" "Manifesto Iniciado" "Joao" "CIA A" None None])
  = (Async.Returned
       {| success := true; message := "Manifesto finalizado com sucesso!" |},
     {| tbl_Cadastro_Operacional := [];
        tbl_SMO_Sistema :=
          [Fixture.manifest "X1" "Manifesto Iniciado" "Joao" "CIA A" None None];
        tbl_registros_operacionais :=
          [Spec.log_row "Finalizar Manifesto" "X1" "Joao" Fixture.healthy];
        calls :=
          [ Insert (Spec.log_row "Finalizar Manifesto" "X1" "Joao" Fixture.healthy);
            Update "Manifesto Finalizado" "Joao" "X1";
            Post Vary.webhook_Manifesto_Operacional
              [("id_manifesto", "X1"); ("nome", "Joao");
               ("Manifesto_Finalizado", "15/01/2025, 09:00:00")] ] |}) /\
  tbl_SMO_Sistema
    (snd (Part_001.submitManifestoAction "Finalizar Manifesto" "X1" "Joao"
            (Fixture.conditions Healthy Healthy (ReportsError Fixture.boom) Healthy)
            (Fixture.world []
               [Fixture.manifest "X1" "Manifesto Iniciado" "Joao" "CIA A" None None])))
  = [Fixture.manifest "X1" "Manifesto Iniciado" "Joao" "CIA A" None None].
Proof.
  split; [reflexivity|].
  exact (proj2 (proj2 (proj2 (proj2
           (reported_update_error_is_silent "Finalizar Manifesto" "X1" "Joao"
              Fixture.boom
              (Fixture.conditions Healthy Healthy (ReportsError Fixture.boom) Healthy)
              (Fixture.world []
                 [Fixture.manifest "X1" "Manifesto Iniciado" "Joao" "CIA A" None None])
              Logic.eq_refl))))).
Defined.

(** X13. The log is append-only and grows by at most one row: the insert is
    always the first request; the log afterwards is the log before, followed
    by the row of this submission exactly when the insert succeeded; and the
    employee table is never touched. *)
Theorem log_grows_by_the_submitted_row
  (action id name : string) (c : Conditions) (w : World) :
  let row := Spec.log_row action id name c in
  let grown :=
    tbl_registros_operacionais w
    ++ (if Spec.succeeded (insert_health c) then [row] else []) in
  (tbl_registros_operacionais
     (snd (Services_api.submitManifestoAction action id name c w)) = grown /\
   tbl_Cadastro_Operacional
     (snd (Services_api.submitManifestoAction action id name c w))
   = tbl_Cadastro_Operacional w /\
   exists rest,
     calls (snd (Services_api.submitManifestoAction action id name c w))
     = calls w ++ Insert row :: rest) /\
  (tbl_registros_operacionais
     (snd (Part_000.submitManifestoAction action id name c w)) = grown /\
   tbl_Cadastro_Operacional
     (snd (Part_000.submitManifestoAction action id name c w))
   = tbl_Cadastro_Operacional w /\
   exists rest,
     calls (snd (Part_000.submitManifestoAction action id name c w))
     = calls w ++ Insert row :: rest) /\
  (tbl_registros_operacionais
     (snd (Part_001.submitManifestoAction action id name c w)) = grown /\
   tbl_Cadastro_Operacional
     (snd (Part_001.submitManifestoAction action id name c w))
   = tbl_Cadastro_Operacional w /\
   exists rest,
     calls (snd (Part_001.submitManifestoAction action id name c w))
     = calls w ++ Insert row :: rest).
Proof.
  intros row grown. subst row grown. unfold Spec.log_row.
  repeat split.
  all: unfold_submit; simpl.
  all: destruct (insert_health c); simpl.
  all: repeat step_submit.
  all: rewrite <- ?app_assoc, ?app_nil_r; simpl.
  all: try reflexivity.
  all: eexists; reflexivity.
Qed.

Section Rows.

Variable id : string.

Lemma same_manifest_refl (r : SMO_Sistema.row) : Vary.same_manifest id r r.
Proof. unfold Vary.same_manifest. tauto. Qed.

Lemma rows_kept (t : list SMO_Sistema.row) :
  Forall2 (Vary.same_manifest id) t t.
Proof.
  induction t; constructor; [apply same_manifest_refl | assumption].
Qed.

Lemma rows_kept_by_update (status name : string) (t : list SMO_Sistema.row) :
  Forall2 (Vary.same_manifest id) t
    (map (fun r => if value_eqb (SMO_Sistema.ID_Manifesto r) (Some id)
                   then Async.set_status status name r else r) t).
Proof.
  induction t as [| r t IH]; simpl; constructor; [|assumption].
  destruct (value_eqb (SMO_Sistema.ID_Manifesto r) (Some id)) eqn:E.
  - apply value_eqb_eq in E. unfold Vary.same_manifest. simpl.
    repeat split. intros H. contradiction.
  - apply same_manifest_refl.
Qed.

End Rows.

(** X14. Whatever happens, a submission neither adds nor removes nor
    reorders manifest rows; in every row the id, the company code, the two
    marker columns and the other spellings of the employee column are kept;
    and a row of another manifest is kept whole. *)
Theorem submission_keeps_manifest_rows
  (action id name : string) (c : Conditions) (w : World) :
  Forall2 (Vary.same_manifest id) (tbl_SMO_Sistema w)
    (tbl_SMO_Sistema (snd (Services_api.submitManifestoAction action id name c w))) /\
  Forall2 (Vary.same_manifest id) (tbl_SMO_Sistema w)
    (tbl_SMO_Sistema (snd (Part_000.submitManifestoAction action id name c w))) /\
  Forall2 (Vary.same_manifest id) (tbl_SMO_Sistema w)
    (tbl_SMO_Sistema (snd (Part_001.submitManifestoAction action id name c w))).
Proof.
  repeat split.
  all: unfold_submit; simpl.
  all: destruct (insert_health c); simpl.
  all: repeat step_submit.
  all: first [apply rows_kept | apply rows_kept_by_update].
Qed.

(** X15. Which webhook a submission calls when neither the insert nor the
    update throws: [src/unnamed/part_001] posts a start to the
    Iniciar-Manifesto URL with [Manifesto_Iniciado], a finish to the
    Manifesto-Operacional URL with [Manifesto_Finalizado], and nothing for
    any other label; [src/unnamed/part_000] posts for a start only. *)
Theorem webhook_by_label
  (action id name : string) (c : Conditions) (w : World) :
  Spec.threw (insert_health c) = false ->
  Spec.threw (update_health c) = false ->
  filter Spec.is_Post
    (calls (snd (Part_001.submitManifestoAction action id name c w)))
  = filter Spec.is_Post (calls w)
    ++ (if (action =? "Iniciar Manifesto")%string then
          [Post Spec.webhook_Iniciar_Manifesto
             [("id_manifesto", id); ("nome", name);
              ("Manifesto_Iniciado", toLocaleString_ptBR c)]]
        else if (action =? "Finalizar Manifesto")%string then
          [Post Vary.webhook_Manifesto_Operacional
             [("id_manifesto", id); ("nome", name);
              ("Manifesto_Finalizado", toLocaleString_ptBR c)]]
        else []) /\
  filter Spec.is_Post
    (calls (snd (Part_000.submitManifestoAction action id name c w)))
  = filter Spec.is_Post (calls w)
    ++ (if (action =? "Iniciar Manifesto")%string then
          [Post Spec.webhook_Iniciar_Manifesto
             [("id_manifesto", id); ("nome", name);
              ("Manifesto_Iniciado", toLocaleString_ptBR c)]]
        else []).
Proof.
  intros Hi Hu.
  unfold Spec.webhook_Iniciar_Manifesto, Vary.webhook_Manifesto_Operacional.
  split.
  all: unfold_submit; simpl.
  all: destruct (insert_health c); try discriminate Hi; simpl.
  all: try (destruct (update_health c); try discriminate Hu; simpl).
  all: repeat step_submit.
  all: rewrite ?filter_app; simpl; rewrite ?app_nil_r; reflexivity.
Qed.

Lemma webhook_by_label_witness :
  filter Spec.is_Post
    (calls (snd (Part_001.submitManifestoAction "Finalizar Manifesto" "X1" "Joao"
                   Fixture.healthy (Fixture.world [] []))))
  = [Post Vary.webhook_Manifesto_Operacional
       [("id_manifesto", "X1"); ("nome", "Joao");
        ("Manifesto_Finalizado", "15/01/2025, 09:00:00")]].
Proof.
  exact (proj1 (webhook_by_label "Finalizar Manifesto" "X1" "Joao"
                  Fixture.healthy (Fixture.world [] [])
                  Logic.eq_refl Logic.eq_refl)).
Defined.

(** X16. The two later revisions give the same answer and leave the same
    tables for every submission, and do exactly the same for every label
    other than "Finalizar Manifesto": the webhook of the finish action is all
    that the last revision adds to submitting. *)
Theorem later_revisions_differ_in_finish_webhook_only
  (action id name : string) (c : Conditions) (w : World) :
  fst (Part_000.submitManifestoAction action id name c w)
  = fst (Part_001.submitManifestoAction action id name c w) /\
  tbl_SMO_Sistema (snd (Part_000.submitManifestoAction action id name c w))
  = tbl_SMO_Sistema (snd (Part_001.submitManifestoAction action id name c w)) /\
  tbl_registros_operacionais (snd (Part_000.submitManifestoAction action id name c w))
  = tbl_registros_operacionais
      (snd (Part_001.submitManifestoAction action id name c w)) /\
  (action <> "Finalizar Manifesto" ->
   Part_000.submitManifestoAction action id name c w
   = Part_001.submitManifestoAction action id name c w).
Proof.
  repeat split.
  4: intros Hne; apply String.eqb_neq in Hne.
  all: unfold_submit; simpl.
  all: destruct (insert_health c); simpl.
  all: try (destruct (update_health c); simpl).
  all: repeat step_submit.
  all: try reflexivity.
  all: congruence.
Qed.

Lemma later_revisions_differ_in_finish_webhook_only_witness :
  Part_000.submitManifestoAction "Iniciar Manifesto" "X1" "Joao"
    (Fixture.conditions Healthy Healthy Healthy (Throws Fixture.boom))
    (Fixture.world [] [Fixture.manifest "X1" "Manifesto Recebido" "" "CIA A" None None])
  = Part_001.submitManifestoAction "Iniciar Manifesto" "X1" "Joao"
      (Fixture.conditions Healthy Healthy Healthy (Throws Fixture.boom))
      (Fixture.world [] [Fixture.manifest "X1" "Manifesto Recebido" "" "CIA A" None None]).
Proof.
  refine (proj2 (proj2 (proj2
            (later_revisions_differ_in_finish_webhook_only
               "Iniciar Manifesto" "X1" "Joao"
               (Fixture.conditions Healthy Healthy Healthy (Throws Fixture.boom))
               (Fixture.world []
                  [Fixture.manifest "X1" "Manifesto Recebido" "" "CIA A" None None]))))
            _).
  discriminate.
Defined.

(* ================================================================== *)
(** * More on the root component                                        *)
(* ================================================================== *)

Section Sessions.

Variable toLowerCase : string -> string.

(** What one event does to the fingerprint of the last submission. *)
Lemma step_lastSubmission (e : App.Event) (s : App.State) :
  App.lastSubmission (fst (App.step toLowerCase e s))
  = Session.armed_by [e] (App.lastSubmission s).
Proof.
  destruct e; simpl.
  - destruct (App.ActionType_eqb a (App.action s)); [reflexivity|].
    unfold App.actionChanged. simpl. destruct a; reflexivity.
  - reflexivity.
  - unfold App.handleNameChange.
    destruct (App.ActionType_eqb (App.action s) App.Finalizar_Puxe && _);
      reflexivity.
  - reflexivity.
  - unfold App.handleRefresh.
    destruct (App.updating s); [reflexivity|]. destruct (App.action s); reflexivity.
  - apply handleSubmit_keeps_lastSubmission.
  - unfold App.submitSettled. destruct (success result); [|reflexivity].
    destruct (App.ActionType_eqb (App.captured_action k) App.Finalizar_Puxe);
      reflexivity.
  - unfold App.onChange_SMO_Sistema.
    destruct (App.action s); try reflexivity.
    destruct (negb _); reflexivity.
  - unfold App.onChange_Cadastro_Operacional. destruct (App.action s); reflexivity.
  - reflexivity.
  - reflexivity.
  - reflexivity.
  - reflexivity.
  - reflexivity.
  - reflexivity.
Qed.

(** The success branch of the callback empties the selected id. *)
Lemma submitSettled_success_clears_id (k : App.Closure) (result : ActionResult)
  (s : App.State) :
  success result = true ->
  App.selectedManifestoId (fst (App.submitSettled k result s)) = "" /\
  App.action (fst (App.submitSettled k result s)) = App.action s.
Proof.
  intros Hs. unfold App.submitSettled. rewrite Hs.
  destruct (App.ActionType_eqb (App.captured_action k) App.Finalizar_Puxe);
    split; reflexivity.
Qed.

(** A form with an action and no selected id is told to fill the fields. *)
Lemma handleSubmit_without_id (s : App.State) :
  App.action s <> App.NoAction ->
  App.selectedManifestoId s = "" ->
  App.handleSubmit toLowerCase s = Spec.rejected "Preencha todos os campos." s.
Proof.
  intros Ha Hi. unfold App.handleSubmit, Spec.rejected. rewrite Hi.
  destruct (App.action s); [contradiction | |]; simpl;
    rewrite orb_true_r; reflexivity.
Qed.

End Sessions.

(** X17. Over any sequence of events of the form, the fingerprint of the
    last submission is the one of the last callback that received
    [success: true], and the initial one when there was none: no handler
    ever resets it, and a later success overwrites it. *)
Theorem guard_holds_last_success
  (toLowerCase : string -> string) (es : list App.Event) (s : App.State) :
  App.lastSubmission (Session.run toLowerCase es s)
  = Session.armed_by es (App.lastSubmission s).
Proof.
  revert s. induction es as [| e es IH]; intros s; [reflexivity|].
  unfold Session.run, Session.armed_by in *. simpl.
  rewrite IH. f_equal. apply step_lastSubmission.
Qed.

(** The guard survives a change of action and a failed attempt. *)
Example guard_after_a_session :
  App.lastSubmission
    (Session.run App.ascii_lower
       [ App.ChooseAction App.Iniciar_Puxe;
         App.NamesLoaded ["Ana"]; App.IdsLoaded ["X1"; "X2"];
         App.TypeName "ana"; App.ChooseId "X1"; App.ClickSubmit;
         App.SubmitSettled
           {| App.captured_action := App.Iniciar_Puxe;
              App.captured_selectedManifestoId := "X1";
              App.captured_name := "ana";
              App.submissionKey := "Iniciar Puxe-X1-ana" |}
           {| success := true; message := "Puxe registrado com sucesso!" |};
         App.ChooseAction App.Finalizar_Puxe;
         App.ChooseName "ana"; App.ChooseId "X1"; App.ClickSubmit;
         App.SubmitSettled
           {| App.captured_action := App.Finalizar_Puxe;
              App.captured_selectedManifestoId := "X1";
              App.captured_name := "ana";
              App.submissionKey := "Finalizar Puxe-X1-ana" |}
           {| success := false; message := "Erro ao processar: connection refused" |};
         App.ChooseAction App.NoAction ]
       App.initial)
  = Some "Iniciar Puxe-X1-ana".
Proof. reflexivity. Qed.

(** X18. The refresh button is debounced: while the spinner flag is set a
    click does nothing; so does a click with no action selected; otherwise
    the click sets the flag and starts the reads of the action, the received
    ids and the names for a start, the names for a finish; and a second
    click right after the first starts nothing more. *)
Theorem refresh_is_debounced (s : App.State) :
  (App.updating s = true -> App.handleRefresh s = (s, [])) /\
  (App.action s = App.NoAction -> App.handleRefresh s = (s, [])) /\
  (App.updating s = false -> App.action s = App.Iniciar_Puxe ->
   App.handleRefresh s
   = (App.setUpdating true s,
      [App.CallFetchIdsByStatus "Manifesto Recebido"; App.CallFetchNames None])) /\
  (App.updating s = false -> App.action s = App.Finalizar_Puxe ->
   App.handleRefresh s
   = (App.setUpdating true s, [App.CallFetchNames (Some "Manifesto Iniciado")])) /\
  App.handleRefresh (fst (App.handleRefresh s)) = (fst (App.handleRefresh s), []).
Proof.
  unfold App.handleRefresh.
  destruct (App.updating s) eqn:Eu, (App.action s) eqn:Ea; simpl;
    rewrite ?Eu, ?Ea; simpl; repeat split;
    try reflexivity; try discriminate; try congruence.
Qed.

Lemma refresh_is_debounced_witness :
  App.handleRefresh
    (App.setUpdating true (Fixture.state App.Iniciar_Puxe "Ana" "X1" ["Ana"] None))
  = (App.setUpdating true (Fixture.state App.Iniciar_Puxe "Ana" "X1" ["Ana"] None), []) /\
  App.handleRefresh (Fixture.state App.Iniciar_Puxe "Ana" "X1" ["Ana"] None)
  = (App.setUpdating true (Fixture.state App.Iniciar_Puxe "Ana" "X1" ["Ana"] None),
     [App.CallFetchIdsByStatus "Manifesto Recebido"; App.CallFetchNames None]).
Proof.
  split.
  - exact (proj1 (refresh_is_debounced
                    (App.setUpdating true
                       (Fixture.state App.Iniciar_Puxe "Ana" "X1" ["Ana"] None)))
                 Logic.eq_refl).
  - exact (proj1 (proj2 (proj2
             (refresh_is_debounced
                (Fixture.state App.Iniciar_Puxe "Ana" "X1" ["Ana"] None))))
             Logic.eq_refl Logic.eq_refl).
Defined.

(** X19. Choosing a name empties the selected manifest id, so a submit that
    follows at once is answered "Preencha todos os campos."; outside the
    finish action, or with an empty name, the list of the employee's
    manifests is emptied too and no read is started. *)
Theorem name_choice_clears_selected_id
  (toLowerCase : string -> string) (val : string) (s : App.State) :
  App.selectedManifestoId (fst (App.handleNameChange val s)) = "" /\
  App.name (fst (App.handleNameChange val s)) = val /\
  (App.action s <> App.NoAction ->
   App.handleSubmit toLowerCase (fst (App.handleNameChange val s))
   = Spec.rejected "Preencha todos os campos." (fst (App.handleNameChange val s))) /\
  (App.action s <> App.Finalizar_Puxe \/ val = "" ->
   App.manifestosForEmployee (fst (App.handleNameChange val s)) = [] /\
   snd (App.handleNameChange val s) = []) /\
  (App.action s = App.Finalizar_Puxe -> val <> "" ->
   App.manifestosForEmployee (fst (App.handleNameChange val s))
   = App.manifestosForEmployee s /\
   snd (App.handleNameChange val s) = [App.CallFetchManifestosForEmployee val]).
Proof.
  assert (Hid : App.selectedManifestoId (fst (App.handleNameChange val s)) = "").
  { unfold App.handleNameChange.
    destruct (App.ActionType_eqb (App.action s) App.Finalizar_Puxe && _);
      reflexivity. }
  assert (Hact : App.action (fst (App.handleNameChange val s)) = App.action s).
  { unfold App.handleNameChange.
    destruct (App.ActionType_eqb (App.action s) App.Finalizar_Puxe && _);
      reflexivity. }
  split; [exact Hid|]. split; [|split; [|split]].
  - unfold App.handleNameChange.
    destruct (App.ActionType_eqb (App.action s) App.Finalizar_Puxe && _);
      reflexivity.
  - intros Ha. apply handleSubmit_without_id; [now rewrite Hact | exact Hid].
  - intros H. unfold App.handleNameChange.
    destruct H as [H | ->].
    + destruct (App.action s); simpl; try (split; reflexivity). contradiction.
    + rewrite andb_false_r. split; reflexivity.
  - intros Ha Hv. unfold App.handleNameChange. rewrite Ha. simpl.
    apply String.eqb_neq in Hv. rewrite Hv. split; reflexivity.
Qed.

Lemma name_choice_clears_selected_id_witness :
  App.handleSubmit App.ascii_lower
    (fst (App.handleNameChange "Ana"
            (Fixture.state App.Finalizar_Puxe "Ben" "X1" ["Ana"; "Ben"] None)))
  = Spec.rejected "Preencha todos os campos."
      (fst (App.handleNameChange "Ana"
              (Fixture.state App.Finalizar_Puxe "Ben" "X1" ["Ana"; "Ben"] None))).
Proof.
  refine (proj1 (proj2 (proj2
            (name_choice_clears_selected_id App.ascii_lower "Ana"
               (Fixture.state App.Finalizar_Puxe "Ben" "X1" ["Ana"; "Ben"] None))))
            _).
  discriminate.
Defined.

(** X20. After a callback that received [success: true] the selected id is
    empty and the overlay is off, so a click on submit that follows at once,
    nothing having been selected again, is answered "Preencha todos os
    campos." and starts no call. *)
Theorem submit_right_after_success_asks_for_fields
  (toLowerCase : string -> string) (k : App.Closure) (result : ActionResult)
  (s : App.State) :
  success result = true ->
  App.action s <> App.NoAction ->
  let after := fst (App.submitSettled k result s) in
  App.selectedManifestoId after = "" /\
  App.loading after = false /\
  App.feedback after = {| App.text := message result; App.type := App.type_success |} /\
  App.handleSubmit toLowerCase after
  = Spec.rejected "Preencha todos os campos." after.
Proof.
  intros Hs Ha after.
  destruct (submitSettled_success_clears_id k result s Hs) as [Hid Hact].
  split; [exact Hid|]. split; [|split].
  - subst after. unfold App.submitSettled. rewrite Hs.
    destruct (App.ActionType_eqb (App.captured_action k) App.Finalizar_Puxe);
      reflexivity.
  - subst after. unfold App.submitSettled. rewrite Hs.
    destruct (App.ActionType_eqb (App.captured_action k) App.Finalizar_Puxe);
      reflexivity.
  - apply handleSubmit_without_id; [subst after; now rewrite Hact | exact Hid].
Qed.

Lemma submit_right_after_success_asks_for_fields_witness :
  App.handleSubmit App.ascii_lower
    (fst (App.submitSettled
            {| App.captured_action := App.Iniciar_Puxe;
               App.captured_selectedManifestoId := "X1";
               App.captured_name := "Ana";
               App.submissionKey := "Iniciar Puxe-X1-Ana" |}
            {| success := true; message := "Puxe registrado com sucesso!" |}
            (fst (App.handleSubmit App.ascii_lower
                    (Fixture.state App.Iniciar_Puxe "Ana" "X1" ["Ana"] None)))))
  = Spec.rejected "Preencha todos os campos."
      (fst (App.submitSettled
              {| App.captured_action := App.Iniciar_Puxe;
                 App.captured_selectedManifestoId := "X1";
                 App.captured_name := "Ana";
                 App.submissionKey := "Iniciar Puxe-X1-Ana" |}
              {| success := true; message := "Puxe registrado com sucesso!" |}
              (fst (App.handleSubmit App.ascii_lower
                      (Fixture.state App.Iniciar_Puxe "Ana" "X1" ["Ana"] None))))).
Proof.
  refine (proj2 (proj2 (proj2
            (submit_right_after_success_asks_for_fields App.ascii_lower
               {| App.captured_action := App.Iniciar_Puxe;
                  App.captured_selectedManifestoId := "X1";
                  App.captured_name := "Ana";
                  App.submissionKey := "Iniciar Puxe-X1-Ana" |}
               {| success := true; message := "Puxe registrado com sucesso!" |}
               (fst (App.handleSubmit App.ascii_lower
                       (Fixture.state App.Iniciar_Puxe "Ana" "X1" ["Ana"] None)))
               Logic.eq_refl _)))).
  discriminate.
Defined.

(** X21. What a successful callback does to the lists: after a finish, every
    occurrence of the submitted id is gone from the employee's manifests, the
    other ids and the name stay, and only the feedback timer is started;
    after a start, the name is emptied, the employee's manifests stay, and
    the received ids are read again. *)
Theorem success_updates_the_lists
  (k : App.Closure) (result : ActionResult) (s : App.State) :
  success result = true ->
  let after := fst (App.submitSettled k result s) in
  (App.captured_action k = App.Finalizar_Puxe ->
   ~ In (App.captured_selectedManifestoId k) (App.manifestosForEmployee after) /\
   (forall x, x <> App.captured_selectedManifestoId k ->
              (In x (App.manifestosForEmployee after) <->
               In x (App.manifestosForEmployee s))) /\
   App.name after = App.name s /\
   snd (App.submitSettled k result s) = [App.ClearFeedbackAfter 3000]) /\
  (App.captured_action k <> App.Finalizar_Puxe ->
   App.name after = "" /\
   App.manifestosForEmployee after = App.manifestosForEmployee s /\
   App.updating after = true /\
   snd (App.submitSettled k result s)
   = [App.CallFetchIdsByStatus "Manifesto Recebido"; App.ClearFeedbackAfter 3000]).
Proof.
  intros Hs after. subst after. unfold App.submitSettled. rewrite Hs.
  split; intros Ha.
  - rewrite Ha. simpl. repeat split.
    + intros Hin. apply filter_In in Hin. destruct Hin as [_ Hin].
      now rewrite String.eqb_refl in Hin.
    + intros Hin. now apply filter_In in Hin.
    + intros Hin. apply filter_In. split; [assumption|].
      apply String.eqb_neq in H. now rewrite H.
  - destruct (App.captured_action k); simpl; try contradiction; repeat split.
Qed.

Lemma success_updates_the_lists_witness :
  App.manifestosForEmployee
    (fst (App.submitSettled
            {| App.captured_action := App.Finalizar_Puxe;
               App.captured_selectedManifestoId := "B2";
               App.captured_name := "Ana";
               App.submissionKey := "Finalizar Puxe-B2-Ana" |}
            {| success := true; message := "Obrigado, puxe concluído!" |}
            (App.setManifestosForEmployee ["B2"; "A1"; "B2"]
               (Fixture.state App.Finalizar_Puxe "Ana" "B2" ["Ana"] None))))
  = ["A1"] /\
  App.name
    (fst (App.submitSettled
            {| App.captured_action := App.Finalizar_Puxe;
               App.captured_selectedManifestoId := "B2";
               App.captured_name := "Ana";
               App.submissionKey := "Finalizar Puxe-B2-Ana" |}
            {| success := true; message := "Obrigado, puxe concluído!" |}
            (App.setManifestosForEmployee ["B2"; "A1"; "B2"]
               (Fixture.state App.Finalizar_Puxe "Ana" "B2" ["Ana"] None))))
  = "Ana".
Proof.
  split; [reflexivity|].
  exact (proj1 (proj2 (proj2
           (proj1 (success_updates_the_lists
                     {| App.captured_action := App.Finalizar_Puxe;
                        App.captured_selectedManifestoId := "B2";
                        App.captured_name := "Ana";
                        App.submissionKey := "Finalizar Puxe-B2-Ana" |}
                     {| success := true; message := "Obrigado, puxe concluído!" |}
                     (App.setManifestosForEmployee ["B2"; "A1"; "B2"]
                        (Fixture.state App.Finalizar_Puxe "Ana" "B2" ["Ana"] None))
                     Logic.eq_refl)
                  Logic.eq_refl)))).
Defined.

(** X22. A submit click starts from a clean banner: what it does and the
    feedback it leaves do not depend on the feedback that was showing. *)
Theorem submit_replaces_any_feedback
  (toLowerCase : string -> string) (f : App.FeedbackMessage) (s : App.State) :
  App.handleSubmit toLowerCase (App.setFeedback f s) = App.handleSubmit toLowerCase s /\
  App.type (App.feedback (fst (App.handleSubmit toLowerCase s))) <> App.type_success.
Proof.
  split; [reflexivity|].
  unfold App.handleSubmit.
  repeat match goal with
         | |- context [if ?b then _ else _] => destruct b
         end; simpl; discriminate.
Qed.

Section RoundTrip.

Variable toLowerCase : string -> string.

Lemma proceeds_has_action (s : App.State) :
  App.handleSubmit toLowerCase s = Spec.proceeds s ->
  App.action s <> App.NoAction.
Proof.
  intros Hp Ha. unfold App.handleSubmit in Hp. rewrite Ha in Hp.
  simpl in Hp. discriminate Hp.
Qed.

End RoundTrip.

(** X23. The form and [src/services/api.ts] together, for a submission that
    went past every check. If neither the insert nor the update throws, the
    form ends with the success banner of its action ("Puxe registrado com
    sucesso!" or "Obrigado, puxe concluído!", never the generic message),
    the guard armed with the fingerprint of the form, and the selected id
    emptied. If the insert throws, or the update after a successful insert,
    it ends with the error banner "Erro ao processar: ..." and the guard,
    the name and the selected id as they were. In both cases the first
    request is the insert of a log row with the label of the action. *)
Theorem form_round_trip_through_api
  (toLowerCase : string -> string) (s : App.State) (c : Conditions) (w : World) :
  App.handleSubmit toLowerCase s = Spec.proceeds s ->
  let k := {| App.captured_action := App.action s;
              App.captured_selectedManifestoId := App.selectedManifestoId s;
              App.captured_name := App.name s;
              App.submissionKey := Spec.fingerprint s |} in
  let settled := Session.timeoutCallback k c w (fst (Spec.proceeds s)) in
  let after := fst (fst settled) in
  (Spec.threw (insert_health c) = false ->
   Spec.threw (update_health c) = false ->
   App.feedback after
   = {| App.text := match App.action s with
                    | App.Finalizar_Puxe => "Obrigado, puxe concluído!"
                    | _ => "Puxe registrado com sucesso!"
                    end;
        App.type := App.type_success |} /\
   App.lastSubmission after = Some (Spec.fingerprint s) /\
   App.selectedManifestoId after = "" /\
   App.loading after = false) /\
  (forall e,
      insert_health c = Throws e \/
      (Spec.succeeded (insert_health c) = true /\ update_health c = Throws e) ->
      App.feedback after
      = {| App.text := ("Erro ao processar: " ++ Js.message e)%string;
           App.type := App.type_error |} /\
      App.lastSubmission after = App.lastSubmission s /\
      App.name after = App.name s /\
      App.selectedManifestoId after = App.selectedManifestoId s /\
      App.loading after = false) /\
  (exists rest,
      calls (snd settled)
      = calls w ++ Insert (Spec.log_row (App.label (App.action s))
                             (App.selectedManifestoId s) (App.name s) c) :: rest).
Proof.
  intros Hp k settled after. subst after settled k.
  pose proof (proceeds_has_action toLowerCase s Hp) as Ha.
  unfold Session.timeoutCallback, Spec.proceeds, Spec.log_row. simpl.
  split; [|split].
  - intros Hi Hu.
    destruct (App.action s); [contradiction | |]; simpl.
    all: unfold_submit; simpl.
    all: destruct (insert_health c); try discriminate Hi; simpl.
    all: try (destruct (update_health c); try discriminate Hu; simpl).
    all: repeat split.
  - intros e [Hi | [Hi Hu]].
    + destruct (App.action s); [contradiction | |]; simpl.
      all: unfold_submit; simpl; rewrite Hi; simpl; repeat split.
    + destruct (App.action s); [contradiction | |]; simpl.
      all: unfold_submit; simpl.
      all: destruct (insert_health c); try discriminate Hi; simpl.
      all: rewrite Hu; simpl; repeat split.
  - destruct (App.action s); [contradiction | |]; simpl.
    all: unfold_submit; simpl.
    all: destruct (insert_health c); simpl.
    all: try (destruct (update_health c); simpl).
    all: rewrite <- ?app_assoc; simpl; eexists; reflexivity.
Qed.

Lemma form_round_trip_through_api_witness :
  App.feedback
    (fst (fst (Session.timeoutCallback
                 {| App.captured_action := App.Finalizar_Puxe;
                    App.captured_selectedManifestoId := "X1";
                    App.captured_name := "Ana";
                    App.submissionKey :=
                      Spec.fingerprint
                        (Fixture.state App.Finalizar_Puxe "Ana" "X1" ["Ana"] None) |}
                 Fixture.healthy (Fixture.world [] [])
                 (fst (Spec.proceeds
                         (Fixture.state App.Finalizar_Puxe "Ana" "X1" ["Ana"] None))))))
  = {| App.text := "Obrigado, puxe concluído!"; App.type := App.type_success |}.
Proof.
  exact (proj1 (proj1
           (form_round_trip_through_api App.ascii_lower
              (Fixture.state App.Finalizar_Puxe "Ana" "X1" ["Ana"] None)
              Fixture.healthy (Fixture.world [] []) Logic.eq_refl)
           Logic.eq_refl Logic.eq_refl)).
Defined.

(* ================================================================== *)
(** * Submitting, then reading                                          *)
(* ================================================================== *)

Section SubmitThenRead.

Variables (action id name : string) (c : Conditions) (w : World).

Hypothesis insert_ok : Spec.succeeded (insert_health c) = true.
Hypothesis update_ok : Spec.succeeded (update_health c) = true.

(** The manifest table after a submission that went through. *)
Lemma table_after_Services_api :
  tbl_SMO_Sistema (snd (Services_api.submitManifestoAction action id name c w))
  = map (fun r => if value_eqb (SMO_Sistema.ID_Manifesto r) (Some id)
                  then Async.set_status
                         (if (action =? "Iniciar Puxe")%string
                          then "Manifesto Iniciado" else "Manifesto Finalizado")
                         name r
                  else r)
        (tbl_SMO_Sistema w).
Proof.
  unfold_submit; simpl.
  destruct (insert_health c); try discriminate insert_ok; simpl.
  all: destruct (update_health c); try discriminate update_ok; simpl.
  all: repeat step_submit; reflexivity.
Qed.

Lemma table_after_Part_001 :
  tbl_SMO_Sistema (snd (Part_001.submitManifestoAction action id name c w))
  = map (fun r => if value_eqb (SMO_Sistema.ID_Manifesto r) (Some id)
                  then Async.set_status
                         (if (action =? "Iniciar Manifesto")%string
                          then "Manifesto Iniciado" else "Manifesto Finalizado")
                         name r
                  else r)
        (tbl_SMO_Sistema w).
Proof.
  unfold_submit; simpl.
  destruct (insert_health c); try discriminate insert_ok; simpl.
  all: destruct (update_health c); try discriminate update_ok; simpl.
  all: repeat step_submit; reflexivity.
Qed.

End SubmitThenRead.

(** X24. Submitting and reading fit together in [src/services/api.ts]. After
    a start that went through, the manifest is no longer among the ids read
    for "Manifesto Recebido" and, if the table has it, it is among the
    manifests of the employee who started it; after a finish that went
    through it is among the manifests of no employee. *)
Theorem start_and_finish_move_the_manifest
  (id name : string) (c c' : Conditions) (w : World) :
  Spec.succeeded (insert_health c) = true ->
  Spec.succeeded (update_health c) = true ->
  let started :=
    snd (Services_api.submitManifestoAction "Iniciar Puxe" id name c w) in
  let finished :=
    snd (Services_api.submitManifestoAction "Finalizar Puxe" id name c w) in
  ~ In (Some id) (Services_api.fetchIdsByStatus "Manifesto Recebido" c' started) /\
  (select_health c' = Healthy ->
   (exists r, In r (tbl_SMO_Sistema w) /\ SMO_Sistema.ID_Manifesto r = Some id) ->
   In (Some id) (Services_api.fetchManifestosForEmployee name c' started)) /\
  (forall name',
      ~ In (Some id) (Services_api.fetchManifestosForEmployee name' c' finished)).
Proof.
  intros Hi Hu started finished. subst started finished.
  split; [|split].
  - unfold Services_api.fetchIdsByStatus.
    rewrite (table_after_Services_api _ _ _ _ _ Hi Hu). simpl.
    destruct (select_health c'); simpl; try tauto.
    intros H. apply In_unique_sorted in H. destruct H as [_ H].
    apply in_map_iff in H. destruct H as (r' & Hid & Hr').
    apply In_eq in Hr'. destruct Hr' as [Hr' Hst].
    apply in_map_iff in Hr'. destruct Hr' as (r & <- & Hr).
    destruct (value_eqb (SMO_Sistema.ID_Manifesto r) (Some id)) eqn:E.
    + simpl in Hst. discriminate Hst.
    + apply value_eqb_eq in Hid. congruence.
  - intros Hh (r & Hr & Hid).
    unfold Services_api.fetchManifestosForEmployee.
    rewrite (table_after_Services_api _ _ _ _ _ Hi Hu), Hh. simpl.
    apply in_map_iff.
    exists (Async.set_status "Manifesto Iniciado" name r). split; [exact Hid|].
    apply In_eq. split; [|reflexivity].
    apply In_eq. split; [|reflexivity].
    apply in_map_iff. exists r. split; [|assumption].
    apply value_eqb_eq in Hid. now rewrite Hid.
  - intros name'. unfold Services_api.fetchManifestosForEmployee.
    rewrite (table_after_Services_api _ _ _ _ _ Hi Hu). simpl.
    destruct (select_health c'); simpl; try tauto.
    intros H. apply in_map_iff in H. destruct H as (r' & Hid & Hr').
    apply In_eq in Hr'. destruct Hr' as [Hr' Hst].
    apply In_eq in Hr'. destruct Hr' as [Hr' _].
    apply in_map_iff in Hr'. destruct Hr' as (r & <- & Hr).
    destruct (value_eqb (SMO_Sistema.ID_Manifesto r) (Some id)) eqn:E.
    + simpl in Hst. discriminate Hst.
    + apply value_eqb_eq in Hid. congruence.
Qed.

Lemma start_and_finish_move_the_manifest_witness :
  Services_api.fetchIdsByStatus "Manifesto Recebido" Fixture.healthy
    (snd (Services_api.submitManifestoAction "Iniciar Puxe" "X1" "Ana"
            Fixture.healthy
            (Fixture.world ["Ana"]
               [ Fixture.manifest "X1" "Manifesto Recebido" "" "CIA A" None None;
                 Fixture.manifest "Y2" "Manifesto Recebido" "" "CIA A" None None ])))
  = [Some "Y2"] /\
  In (Some "X1")
     (Services_api.fetchManifestosForEmployee "Ana" Fixture.healthy
        (snd (Services_api.submitManifestoAction "Iniciar Puxe" "X1" "Ana"
                Fixture.healthy
                (Fixture.world ["Ana"]
                   [ Fixture.manifest "X1" "Manifesto Recebido" "" "CIA A" None None;
                     Fixture.manifest "Y2" "Manifesto Recebido" "" "CIA A" None None ])))).
Proof.
  split; [reflexivity|].
  refine (proj1 (proj2
            (start_and_finish_move_the_manifest "X1" "Ana"
               Fixture.healthy Fixture.healthy
               (Fixture.world ["Ana"]
                  [ Fixture.manifest "X1" "Manifesto Recebido" "" "CIA A" None None;
                    Fixture.manifest "Y2" "Manifesto Recebido" "" "CIA A" None None ])
               Logic.eq_refl Logic.eq_refl))
            Logic.eq_refl _).
  eexists. split; [now left | reflexivity].
Defined.

(** X25. In the marker-column revision a submission changes who a manifest
    is listed for, not whether it is listed: after a submission of either
    kind that went through, a manifest whose markers make it eligible is
    among the manifests of the employee who submitted, and among those of no
    other employee; the marker columns themselves are only changed outside
    this code. *)
Theorem marker_list_follows_the_submitter
  (action id name : string) (c c' : Conditions) (w : World) :
  Spec.succeeded (insert_health c) = true ->
  Spec.succeeded (update_health c) = true ->
  let submitted := snd (Part_001.submitManifestoAction action id name c w) in
  (select_health c' = Healthy ->
   (exists r, In r (tbl_SMO_Sistema w) /\
              SMO_Sistema.ID_Manifesto r = Some id /\
              SMO_Sistema.Manifesto_Disponivel r = None /\
              SMO_Sistema.Manifesto_Iniciado r <> None) ->
   In (Some id) (Part_001.fetchManifestosForEmployee name c' submitted)) /\
  (forall name',
      name' <> name ->
      ~ In (Some id) (Part_001.fetchManifestosForEmployee name' c' submitted)).
Proof.
  intros Hi Hu submitted. subst submitted. split.
  - intros Hh (r & Hr & Hid & Hd & Hini).
    unfold Part_001.fetchManifestosForEmployee.
    rewrite (table_after_Part_001 _ _ _ _ _ Hi Hu), Hh. simpl.
    apply in_map_iff.
    exists (Async.set_status
              (if (action =? "Iniciar Manifesto")%string
               then "Manifesto Iniciado" else "Manifesto Finalizado") name r).
    split; [exact Hid|].
    apply In_not_is_null. split; [|exact Hini].
    apply In_is_null. split; [|exact Hd].
    apply In_eq. split; [|reflexivity].
    apply in_map_iff. exists r. split; [|assumption].
    apply value_eqb_eq in Hid. now rewrite Hid.
  - intros name' Hne. unfold Part_001.fetchManifestosForEmployee.
    rewrite (table_after_Part_001 _ _ _ _ _ Hi Hu). simpl.
    destruct (select_health c'); simpl; try tauto.
    intros H. apply in_map_iff in H. destruct H as (r' & Hid & Hr').
    apply In_not_is_null in Hr'. destruct Hr' as [Hr' _].
    apply In_is_null in Hr'. destruct Hr' as [Hr' _].
    apply In_eq in Hr'. destruct Hr' as [Hr' Hus].
    apply in_map_iff in Hr'. destruct Hr' as (r & <- & Hr).
    destruct (value_eqb (SMO_Sistema.ID_Manifesto r) (Some id)) eqn:E.
    + simpl in Hus. congruence.
    + apply value_eqb_eq in Hid. congruence.
Qed.

Lemma marker_list_follows_the_submitter_witness :
  Part_001.fetchManifestosForEmployee "Ana" Fixture.healthy
    (snd (Part_001.submitManifestoAction "Finalizar Manifesto" "X1" "Ana"
            Fixture.healthy
            (Fixture.world []
               [ Fixture.manifest "X1" "Manifesto Iniciado" "Ana" "CIA A"
                   None (Some "14/01/2025, 08:00:00") ])))
  = [Some "X1"] /\
  In (Some "X1")
     (Part_001.fetchManifestosForEmployee "Ana" Fixture.healthy
        (snd (Part_001.submitManifestoAction "Finalizar Manifesto" "X1" "Ana"
                Fixture.healthy
                (Fixture.world []
                   [ Fixture.manifest "X1" "Manifesto Iniciado" "Ana" "CIA A"
                       None (Some "14/01/2025, 08:00:00") ])))).
Proof.
  split; [reflexivity|].
  refine (proj1
            (marker_list_follows_the_submitter "Finalizar Manifesto" "X1" "Ana"
               Fixture.healthy Fixture.healthy
               (Fixture.world []
                  [ Fixture.manifest "X1" "Manifesto Iniciado" "Ana" "CIA A"
                      None (Some "14/01/2025, 08:00:00") ])
               Logic.eq_refl Logic.eq_refl)
            Logic.eq_refl _).
  eexists. split; [now left|]. repeat split. discriminate.
Defined.

(** X26. A change notification from the store never disturbs what the user
    has entered: either handler leaves every cell of the form as it is except
    the spinner flag, starts the reads of the current action only, and with
    no action selected does nothing. *)
Theorem store_changes_only_start_reads (s : App.State) :
  App.setUpdating (App.updating s) (fst (App.onChange_SMO_Sistema s)) = s /\
  App.setUpdating (App.updating s) (fst (App.onChange_Cadastro_Operacional s)) = s /\
  snd (App.onChange_SMO_Sistema s)
  = match App.action s with
    | App.Iniciar_Puxe => [App.CallFetchIdsByStatus "Manifesto Recebido"]
    | App.Finalizar_Puxe =>
        if (App.name s =? "")%string then []
        else [App.CallFetchManifestosForEmployee (App.name s)]
    | App.NoAction => []
    end /\
  snd (App.onChange_Cadastro_Operacional s)
  = match App.action s with
    | App.Iniciar_Puxe => [App.CallFetchNames None]
    | App.Finalizar_Puxe => [App.CallFetchNames (Some "Manifesto Iniciado")]
    | App.NoAction => []
    end /\
  (App.action s = App.NoAction ->
   App.onChange_SMO_Sistema s = (s, []) /\
   App.onChange_Cadastro_Operacional s = (s, [])).
Proof.
  unfold App.onChange_SMO_Sistema, App.onChange_Cadastro_Operacional.
  destruct s as [a nm i nl il ml ld lm up fb ls]; simpl.
  destruct a; simpl; destruct (nm =? "")%string; simpl;
    repeat split; try reflexivity; discriminate.
Qed.

(** X27. Choosing another action empties the name, the selected id, the
    employee's manifests and the feedback, keeps the lists already loaded
    and the fingerprint of the last submission, and starts the reads of the
    new action; a submit that follows at once starts no call. Choosing the
    action already selected does nothing. *)
Theorem action_change_resets_the_form
  (toLowerCase : string -> string) (a : App.ActionType) (s : App.State) :
  (a = App.action s -> App.step toLowerCase (App.ChooseAction a) s = (s, [])) /\
  (a <> App.action s ->
   let after := fst (App.step toLowerCase (App.ChooseAction a) s) in
   App.action after = a /\
   App.name after = "" /\
   App.selectedManifestoId after = "" /\
   App.manifestosForEmployee after = [] /\
   App.feedback after = {| App.text := ""; App.type := App.type_empty |} /\
   App.namesList after = App.namesList s /\
   App.idsList after = App.idsList s /\
   App.lastSubmission after = App.lastSubmission s /\
   snd (App.step toLowerCase (App.ChooseAction a) s)
   = match a with
     | App.Iniciar_Puxe =>
         [App.CallFetchNames None; App.CallFetchIdsByStatus "Manifesto Recebido"]
     | App.Finalizar_Puxe => [App.CallFetchNames (Some "Manifesto Iniciado")]
     | App.NoAction => []
     end /\
   snd (App.handleSubmit toLowerCase after) = []).
Proof.
  split.
  - intros ->. simpl.
    assert (E : App.ActionType_eqb (App.action s) (App.action s) = true)
      by now apply ActionType_eqb_eq.
    now rewrite E.
  - intros Hne after. subst after. simpl.
    destruct (App.ActionType_eqb a (App.action s)) eqn:E.
    + apply ActionType_eqb_eq in E. contradiction.
    + unfold App.actionChanged. simpl. destruct a; simpl; repeat split.
Qed.

Lemma action_change_resets_the_form_witness :
  App.step App.ascii_lower (App.ChooseAction App.Finalizar_Puxe)
    (Fixture.state App.Iniciar_Puxe "Ana" "X1" ["Ana"] (Some "Iniciar Puxe-X1-Ana"))
  = (App.setUpdating true
       (Fixture.state App.Finalizar_Puxe "" "" ["Ana"] (Some "Iniciar Puxe-X1-Ana")),
     [App.CallFetchNames (Some "Manifesto Iniciado")]) /\
  App.lastSubmission
    (fst (App.step App.ascii_lower (App.ChooseAction App.Finalizar_Puxe)
            (Fixture.state App.Iniciar_Puxe "Ana" "X1" ["Ana"]
               (Some "Iniciar Puxe-X1-Ana"))))
  = Some "Iniciar Puxe-X1-Ana".
Proof.
  split; [reflexivity|].
  assert (Hne : App.Finalizar_Puxe
                <> App.action (Fixture.state App.Iniciar_Puxe "Ana" "X1" ["Ana"]
                                 (Some "Iniciar Puxe-X1-Ana")))
    by discriminate.
  exact (proj1 (proj2 (proj2 (proj2 (proj2 (proj2 (proj2 (proj2
           (proj2 (action_change_resets_the_form App.ascii_lower
                     App.Finalizar_Puxe
                     (Fixture.state App.Iniciar_Puxe "Ana" "X1" ["Ana"]
                        (Some "Iniciar Puxe-X1-Ana")))
                  Hne))))))))).
Defined.
